(** * Copr dist-git importer and custom-script SRPM provider

    A shallow embedding of

      - [dist-git/dist_git/dist_git_importer.py]
        (task record, source providers, package inspector, import loop), and
      - [rpmbuild/copr_rpmbuild/providers/custom.py]
        (the custom-script provider),

    together with the properties of the pipeline they implement.

    The program is Python 2 ([filter] returns a list, [str.split],
    [str.isdigit]).  Everything the program does to its surroundings is made
    explicit: a [world] holds the file system, the chronological trace of the
    calls that left the process and the importer's running flag; the answers
    of the surroundings (sub-processes, HTTP peers, the disk, the external
    import routine) are the fields of the class [Env].  Python exceptions are
    values of type [exn], and a statement sequence is a computation in the
    state-and-exception monad [M].

    Conventions of the model:
      - a logging call has no effect of its own and is left out; where the
        statement that builds its message stands outside every handler
        ([do_import]: its first line and its [except] clauses), the
        [str.format] that builds the message is kept, since it can raise;
      - only exceptions deriving from [Exception] are modelled (no
        [KeyboardInterrupt], no [MemoryError]);
      - JSON numbers are integers;
      - the four exception classes of [dist_git.exceptions] are unrelated
        direct subclasses of [Exception];
      - the file system is a set of directories and a table of regular
        files, both keyed by path; listing a directory gives the files and
        the sub-directories that lie directly in it. *)

From stdpp Require Import gmap strings list pretty.
From Stdlib Require Import ZArith Ascii String.

Open Scope string_scope.
Open Scope Z_scope.
Open Scope list_scope.

(** ** Python strings *)

Module PyStr.

(** [string.whitespace] of Python 2 in the C locale. *)
Definition is_space (c : ascii) : bool :=
  match nat_of_ascii c with
  | 32%nat | 9%nat | 10%nat | 11%nat | 12%nat | 13%nat => true
  | _ => false
  end.

Definition is_digit (c : ascii) : bool :=
  let n := nat_of_ascii c in (48 <=? n)%nat && (n <=? 57)%nat.

Fixpoint all_chars (p : ascii → bool) (s : string) : bool :=
  match s with
  | EmptyString => true
  | String c s' => p c && all_chars p s'
  end.

(** [s.isdigit()]: at least one character, all of them digits. *)
Definition isdigit (s : string) : bool :=
  match s with
  | EmptyString => false
  | _ => all_chars is_digit s
  end.

(** [s.split(sep)] for a one-character separator: every occurrence of the
    separator cuts, empty fields are kept. *)
Fixpoint split_on (sep : ascii) (s : string) : list string :=
  match s with
  | EmptyString => [EmptyString]
  | String c s' =>
      if Ascii.eqb c sep then EmptyString :: split_on sep s'
      else match split_on sep s' with
           | [] => [String c EmptyString]
           | h :: t => String c h :: t
           end
  end.

(** [s.split()]: runs of whitespace cut, no empty field is produced. *)
Fixpoint split (s : string) : list string :=
  match s with
  | EmptyString => []
  | String c s' =>
      if is_space c then split s'
      else match s' with
           | EmptyString => [String c EmptyString]
           | String c' _ =>
               if is_space c' then String c EmptyString :: split s'
               else match split s' with
                    | [] => [String c EmptyString]
                    | h :: t => String c h :: t
                    end
           end
  end.

(** [s.endswith(suffix)]. *)
Definition endswith (s suffix : string) : bool :=
  let n := String.length s in
  let m := String.length suffix in
  (m <=? n)%nat && String.eqb (String.substring (n - m) m s) suffix.

(** [s.startswith(p)] returning the remainder. *)
Fixpoint strip_prefix (p s : string) : option string :=
  match p, s with
  | EmptyString, _ => Some s
  | String a p', String b s' =>
      if Ascii.eqb a b then strip_prefix p' s' else None
  | String _ _, EmptyString => None
  end.

(** [s.replace(old, "")] for a non-empty [old]: [skip] counts the
    characters of a match that are still to be dropped. *)
Fixpoint remove_all_from (skip : nat) (old s : string) : string :=
  match s with
  | EmptyString => EmptyString
  | String c s' =>
      match skip with
      | S k => remove_all_from k old s'
      | O =>
          if String.prefix old s
          then remove_all_from (String.length old - 1) old s'
          else String c (remove_all_from 0 old s')
      end
  end.

Definition remove_all (old s : string) : string := remove_all_from 0 old s.

(** [sep.join(l)]. *)
Fixpoint join (sep : string) (l : list string) : string :=
  match l with
  | [] => EmptyString
  | [x] => x
  | x :: rest => x +:+ sep +:+ join sep rest
  end.

Definition has_char (c : ascii) (s : string) : bool :=
  negb (all_chars (fun x => negb (Ascii.eqb x c)) s).

End PyStr.

(** ** Python values *)

(** The values that [json.loads] and [r.json()] deliver, plus [None]. *)
#[local] Set Warnings "-register-all".
Inductive pyval : Type :=
| PNone
| PBool (b : bool)
| PInt (z : Z)
| PStr (s : string)
| PList (l : list pyval)
| PDict (d : list (string * pyval)).

(** Truth value of an object in an [if]. *)
Definition truthy (v : pyval) : bool :=
  match v with
  | PNone => false
  | PBool b => b
  | PInt z => negb (z =? 0)
  | PStr s => negb (String.eqb s "")
  | PList l => match l with [] => false | _ => true end
  | PDict d => match d with [] => false | _ => true end
  end.

(** [v == k] for an integer constant [k]; [True == 1] and [False == 0]. *)
Definition eq_int (v : pyval) (k : Z) : bool :=
  match v with
  | PInt z => z =? k
  | PBool b => (if b then 1 else 0) =? k
  | _ => false
  end.

(** [v != s] for a string constant [s]. *)
Definition ne_str (v : pyval) (s : string) : bool :=
  match v with
  | PStr t => negb (String.eqb t s)
  | _ => true
  end.

Definition is_none (v : pyval) : bool :=
  match v with PNone => true | _ => false end.

(** ** Exceptions *)

Inductive builtin_exn : Type :=
| OSError | IOError | KeyError | ValueError | TypeError | IndexError
| AttributeError | RuntimeError
| UnboundLocalError  (* a local variable read before it was assigned *)
| UnicodeEncodeError (* a unicode string that does not fit a byte string *)
| RequestException   (* requests: connection errors, timeouts, ... *)
| HTTPError.         (* requests: raised by raise_for_status *)

Inductive exn : Type :=
| PackageImportException
| PackageDownloadException
| PackageQueryException
| GitAndTitoException (arg : pyval)
| Builtin (b : builtin_exn).

(** The typed errors the orchestrator names in its [except] clauses. *)
Definition anticipated (e : exn) : bool :=
  match e with Builtin _ => false | _ => true end.

(** Pure fallible computations. *)
Definition res (A : Type) : Type := exn + A.

Definition res_bind {A B} (r : res A) (k : A → res B) : res B :=
  match r with inl e => inl e | inr a => k a end.

Notation "'let?' x := r 'in' k" := (res_bind r (fun x => k))
  (at level 10, x name, r at level 100, k at level 200).

(** [v[k]] for a string key. *)
Fixpoint assoc (k : string) (d : list (string * pyval)) : option pyval :=
  match d with
  | [] => None
  | (k', v) :: d' => if String.eqb k k' then Some v else assoc k d'
  end.

Definition getitem (v : pyval) (k : string) : res pyval :=
  match v with
  | PDict d => match assoc k d with Some x => inr x | None => inl (Builtin KeyError) end
  | _ => inl (Builtin TypeError)
  end.

(** ** The world outside the interpreter *)

Record filesystem : Type := {
  fs_dirs : gset string;           (* existing directories, by path *)
  fs_files : gmap string string    (* regular files: path to content *)
}.

(** The two ways the program hands a command to [Popen]. *)
Inductive cmdline : Type :=
| Argv (args : list string)        (* Popen([...]) *)
| Shell (line : string).           (* Popen("...", shell=True) *)

(** Calls that leave the process, in the order they happen. *)
Inductive event : Type :=
| EvPopen (cmd : cmdline) (cwd : option string)
| EvCall (args : list string)
| EvRunCmd (args : list pyval)                 (* helpers.run_cmd *)
| EvBuildSrpm (srcdir outdir : string)         (* helpers.build_srpm *)
| EvGet (url : pyval)
| EvPost (url : string) (data : pyval)
| EvWritten (path : string)                    (* a file written and closed *)
| EvGitImport (filepath : string)
| EvSleep
| EvStop.                                      (* running flag cleared *)

Record world : Type := {
  w_fs : filesystem;
  w_trace : list event;
  w_running : bool                 (* DistGitImporter.is_running *)
}.

Definition set_fs (f : filesystem) (w : world) : world :=
  {| w_fs := f; w_trace := w_trace w; w_running := w_running w |}.

Definition emit (e : event) (w : world) : world :=
  {| w_fs := w_fs w; w_trace := w_trace w ++ [e]; w_running := w_running w |}.

Definition set_running (b : bool) (w : world) : world :=
  {| w_fs := w_fs w; w_trace := w_trace w; w_running := b |}.

(** Outcome of [Popen(...)] followed by [communicate()]. *)
Inductive proc_result : Type :=
| LaunchFailed                                   (* Popen raised OSError *)
| Completed (output error : string) (returncode : Z).

(** Outcome of [requests.get(url, stream=True)]. *)
Inductive http_result : Type :=
| GetFailed                                      (* transport failure *)
| Response (status_code : Z)
           (chunks : list string)                (* what iter_content yields *)
           (stream_ok : bool)                    (* false: the stream breaks
                                                    after these chunks *)
           (json : option pyval).                (* r.json(), if it parses *)

(** ** The task record *)

Module SourceType.
Definition SRPM_LINK : Z := 1.
Definition SRPM_UPLOAD : Z := 2.
Definition GIT_AND_TITO : Z := 3.
Definition GIT_AND_MOCK : Z := 4.
End SourceType.

Record ImportTask : Type := {
  task_id : pyval;
  user : pyval;
  project : pyval;
  branch : pyval;
  source_type : pyval;
  source_json : pyval;
  source_data : pyval;
  package_name : pyval;
  package_version : pyval;
  git_hash : pyval;
  package_url : pyval;       (* SRPM_LINK, SRPM_UPLOAD *)
  git_url : pyval;           (* GIT_AND_TITO, GIT_AND_MOCK *)
  git_branch : pyval;
  tito_git_dir : pyval;      (* GIT_AND_TITO *)
  tito_test : pyval;
  mock_git_dir : pyval       (* GIT_AND_MOCK *)
}.

Record Opts : Type := {
  frontend_base_url : string;
  frontend_auth : string;
  cgit_pkg_list_location : string;
  sleep_time : Z
}.

(** ** The surroundings *)

(** Every field answers one kind of call; the answer may depend on the whole
    [world], hence on everything that happened before. *)
Class Env : Type := {
  (** sub-process run to completion; it may change the file system *)
  popen : cmdline → option string → world → proc_result * filesystem;
  (** [subprocess.call]: [None] when the program cannot be launched *)
  call : list string → world → option Z * filesystem;
  (** [requests.get] *)
  http_get : string → world → http_result;
  (** [requests.post]: [false] when it raises *)
  http_post : string → pyval → world → bool;
  (** can this path be opened for writing and written in full *)
  write_ok : string → world → bool;
  (** can the temporary area take one more directory ([tempfile.mkdtemp]) *)
  tmp_ok : world → bool;
  (** can [str.format] put this value into a byte-string template: not so
      for a unicode string, as [json.loads] delivers them, with a character
      outside ASCII *)
  encodable : pyval → bool;
  (** [srpm_import.do_git_srpm_import(opts, filepath, task, tmp)] *)
  do_git_srpm_import :
    Opts → string → ImportTask → string → world → res pyval * filesystem;
  (** [helpers.run_cmd] and [helpers.build_srpm] of copr_rpmbuild:
      [false] when they raise *)
  run_cmd : list pyval → world → bool * filesystem;
  build_srpm : string → string → world → bool * filesystem;
  (** [os.path.normpath] *)
  normpath : string → string;
  (** [str(v)] as used by [str.format] *)
  py_str : pyval → string;
  (** [json.loads]: [None] when it raises [ValueError] *)
  json_loads : string → option pyval;
  (** [helpers.FailTypeEnum(name)] *)
  FailTypeEnum : string → pyval;
  (** does somebody clear the running flag during this turn of the loop *)
  stop_request : world → bool
}.

(** ** Statements: state and exceptions *)

Definition M (A : Type) : Type := world → res A * world.

Definition ret {A} (a : A) : M A := fun w => (inr a, w).

Definition raise {A} (e : exn) : M A := fun w => (inl e, w).

Definition bind {A B} (m : M A) (k : A → M B) : M B := fun w =>
  match m w with
  | (inl e, w') => (inl e, w')
  | (inr a, w') => k a w'
  end.

Notation "'let!' x := m 'in' k" := (bind m (fun x => k))
  (at level 10, x name, m at level 100, k at level 200).
Notation "m >>> k" := (bind m (fun _ => k))
  (at level 95, right associativity).

Definition lift {A} (r : res A) : M A := fun w => (r, w).

(** [try: m except <clauses>]: [handler e] is the body of the first clause
    that matches [e], if any.  An exception raised by the body of a clause
    propagates. *)
Definition try_except {A} (m : M A) (handler : exn → option (M A)) : M A :=
  fun w =>
    match m w with
    | (inl e, w') =>
        match handler e with
        | Some k => k w'
        | None => (inl e, w')
        end
    | (inr a, w') => (inr a, w')
    end.

(** [try: m finally: f]. *)
Definition try_finally {A} (m : M A) (f : M unit) : M A := fun w =>
  let '(r, w') := m w in
  match f w' with
  | (inl e, w'') => (inl e, w'')
  | (inr _, w'') => (r, w'')
  end.

Definition log (e : event) : M unit := fun w => (inr tt, emit e w).

(** ** Library calls *)

Section primitives.
Context `{Env}.

(** [os.path.join(a, b)]. *)
Definition os_path_join (a b : string) : string :=
  if String.prefix "/" b then b
  else if PyStr.endswith a "/" || String.eqb a "" then a +:+ b
  else a +:+ "/" +:+ b.

(** The name of the entry [p] inside directory [d], when [p] lies directly
    in [d]. *)
Definition child_name (d p : string) : option string :=
  match PyStr.strip_prefix (d +:+ "/") p with
  | Some n =>
      if negb (String.eqb n "") && negb (PyStr.has_char "/" n)
      then Some n else None
  | None => None
  end.

Definition under (d p : string) : bool :=
  match PyStr.strip_prefix (d +:+ "/") p with Some _ => true | None => false end.

(** The names of the files and of the sub-directories directly in [d]. *)
Definition entries (d : string) (f : filesystem) : list string :=
  omap (child_name d) (elements (dom (fs_files f) ∪ fs_dirs f)).

(** [tempfile.mkdtemp()]: a directory that did not exist is created, or
    [OSError] is raised when the temporary area cannot take it. *)
Definition tmp_path (suffix : string) : string := "/tmp/tmp" +:+ suffix.

Definition used_suffixes (f : filesystem) : gset string :=
  set_omap (PyStr.strip_prefix "/tmp/tmp") (fs_dirs f).

Definition mkdtemp : M string := fun w =>
  if tmp_ok w then
    let f := w_fs w in
    let p := tmp_path (fresh (used_suffixes f)) in
    (inr p, set_fs {| fs_dirs := {[ p ]} ∪ fs_dirs f; fs_files := fs_files f |} w)
  else (inl (Builtin OSError), w).

(** ["...{}...".format(v1, ...)] with a byte-string template. *)
Definition str_format (values : list pyval) : M unit :=
  if forallb encodable values then ret tt
  else raise (Builtin UnicodeEncodeError).

(** [os.listdir(d)]. *)
Definition os_listdir (d : string) : M (list string) := fun w =>
  if decide (d ∈ fs_dirs (w_fs w))
  then (inr (entries d (w_fs w)), w)
  else (inl (Builtin OSError), w).

Definition remove_tree (d : string) (f : filesystem) : filesystem :=
  {| fs_dirs := filter (fun p => p ≠ d ∧ under d p = false) (fs_dirs f);
     fs_files := filter (fun kv => under d kv.1 = false) (fs_files f) |}.

(** [shutil.rmtree(d)]. *)
Definition shutil_rmtree (d : string) : M unit := fun w =>
  if decide (d ∈ fs_dirs (w_fs w))
  then (inr tt, set_fs (remove_tree d (w_fs w)) w)
  else (inl (Builtin OSError), w).

(** [shutil.rmtree(d, ignore_errors=True)]. *)
Definition shutil_rmtree_ignore_errors (d : string) : M unit :=
  try_except (shutil_rmtree d) (fun _ => Some (ret tt)).

Definition put_file (path content : string) (f : filesystem) : filesystem :=
  {| fs_dirs := fs_dirs f; fs_files := <[ path := content ]> (fs_files f) |}.

(** [with open(path, 'w') as f: f.write(content)]. *)
Definition write_file (path content : string) : M unit := fun w =>
  if write_ok path w
  then (inr tt, emit (EvWritten path) (set_fs (put_file path content (w_fs w)) w))
  else (inl (Builtin IOError), w).

(** [shutil.copyfile(src, dst)]. *)
Definition shutil_copyfile (src dst : string) : M unit := fun w =>
  match fs_files (w_fs w) !! src with
  | Some content => write_file dst content w
  | None => (inl (Builtin IOError), w)
  end.

(** [with open(path, 'wb') as f: for chunk in r.iter_content(n): f.write(chunk)].
    When the file cannot be written nothing is recorded for it; when the
    stream breaks the chunks received so far stay in the file. *)
Definition write_stream (path : string) (chunks : list string) (stream_ok : bool)
  : M unit := fun w =>
  if write_ok path w then
    let w' := set_fs (put_file path (String.concat "" chunks) (w_fs w)) w in
    if stream_ok then (inr tt, emit (EvWritten path) w')
    else (inl (Builtin RequestException), w')
  else (inl (Builtin IOError), w).

(** Arguments of a sub-process must be strings. *)
Fixpoint str_args (l : list pyval) : option (list string) :=
  match l with
  | [] => Some []
  | PStr s :: l' =>
      match str_args l' with Some r => Some (s :: r) | None => None end
  | _ :: _ => None
  end.

Definition argv (l : list pyval) : M (list string) :=
  match str_args l with
  | Some r => ret r
  | None => raise (Builtin TypeError)
  end.

(** [proc = Popen(cmd, stdout=PIPE, stderr=PIPE, cwd=cwd);
     output, error = proc.communicate()]; yields
    [(output, error, proc.returncode)] or raises [OSError]. *)
Definition Popen (cmd : cmdline) (cwd : option string) : M (string * string * Z) :=
  fun w =>
    let w1 := emit (EvPopen cmd cwd) w in
    match popen cmd cwd w with
    | (LaunchFailed, _) => (inl (Builtin OSError), w1)
    | (Completed output error rc, f) => (inr (output, error, rc), set_fs f w1)
    end.

(** [subprocess.call(args)]. *)
Definition subprocess_call (args : list pyval) : M Z :=
  let! a := argv args in
  fun w =>
    let w1 := emit (EvCall a) w in
    match call a w with
    | (None, _) => (inl (Builtin OSError), w1)
    | (Some rc, f) => (inr rc, set_fs f w1)
    end.

(** [requests.get(url, ...)]: the response, or an exception of requests. *)
Definition requests_get (url : pyval) : M (Z * list string * bool * option pyval) :=
  fun w =>
    let w1 := emit (EvGet url) w in
    match url with
    | PStr u =>
        match http_get u w with
        | GetFailed => (inl (Builtin RequestException), w1)
        | Response st chunks ok js => (inr (st, chunks, ok, js), w1)
        end
    | _ => (inl (Builtin RequestException), w1)
    end.

(** [response.raise_for_status()] of requests: 4xx and 5xx raise. *)
Definition raise_for_status (status_code : Z) : M unit :=
  if (400 <=? status_code) && (status_code <? 600)
  then raise (Builtin HTTPError) else ret tt.

(** [requests.post(url, data=json.dumps(data), ...)]. *)
Definition requests_post (url : string) (data : pyval) : M unit := fun w =>
  let w1 := emit (EvPost url data) w in
  if http_post url data w then (inr tt, w1)
  else (inl (Builtin RequestException), w1).

(** [len(v)] and [v[0]]. *)
Definition py_len (v : pyval) : res nat :=
  match v with
  | PStr s => inr (String.length s)
  | PList l => inr (List.length l)
  | PDict d => inr (List.length d)
  | _ => inl (Builtin TypeError)
  end.

Definition first_item (v : pyval) : res pyval :=
  match v with
  | PStr (String c _) => inr (PStr (String c ""))
  | PStr EmptyString => inl (Builtin IndexError)
  | PList (x :: _) => inr x
  | PList [] => inl (Builtin IndexError)
  | PDict _ => inl (Builtin KeyError)
  | _ => inl (Builtin TypeError)
  end.

(** [json.loads(v)]. *)
Definition loads (v : pyval) : res pyval :=
  match v with
  | PStr s =>
      match json_loads s with
      | Some j => inr j
      | None => inl (Builtin ValueError)
      end
  | _ => inl (Builtin TypeError)
  end.

End primitives.

(** ** dist_git_importer.py: the task record *)

Module Task.
Section defs.
Context `{Env}.

(** [ImportTask.__init__]. *)
Definition init : ImportTask :=
  {| task_id := PNone; user := PNone; project := PNone; branch := PNone;
     source_type := PNone; source_json := PNone; source_data := PNone;
     package_name := PNone; package_version := PNone; git_hash := PNone;
     package_url := PNone; git_url := PNone; git_branch := PNone;
     tito_git_dir := PNone; tito_test := PNone; mock_git_dir := PNone |}.

Definition set_package (name version : pyval) (t : ImportTask) : ImportTask :=
  {| task_id := task_id t; user := user t; project := project t;
     branch := branch t; source_type := source_type t;
     source_json := source_json t; source_data := source_data t;
     package_name := name; package_version := version;
     git_hash := git_hash t; package_url := package_url t;
     git_url := git_url t; git_branch := git_branch t;
     tito_git_dir := tito_git_dir t; tito_test := tito_test t;
     mock_git_dir := mock_git_dir t |}.

Definition set_git_hash (h : pyval) (t : ImportTask) : ImportTask :=
  {| task_id := task_id t; user := user t; project := project t;
     branch := branch t; source_type := source_type t;
     source_json := source_json t; source_data := source_data t;
     package_name := package_name t; package_version := package_version t;
     git_hash := h; package_url := package_url t;
     git_url := git_url t; git_branch := git_branch t;
     tito_git_dir := tito_git_dir t; tito_test := tito_test t;
     mock_git_dir := mock_git_dir t |}.

(** The [reponame] property. *)
Definition reponame (t : ImportTask) : pyval :=
  if is_none (user t) || is_none (project t) || is_none (package_name t)
  then PNone
  else PStr (py_str (user t) +:+ "/" +:+ py_str (project t) +:+ "/"
             +:+ py_str (package_name t)).

(** [ImportTask.from_dict(dict_data, opts)]. *)
Definition from_dict (dict_data : pyval) (opts : Opts) : res ImportTask :=
  let? v_task_id := getitem dict_data "task_id" in
  let? v_user := getitem dict_data "user" in
  let? v_project := getitem dict_data "project" in
  let? v_branch := getitem dict_data "branch" in
  let? v_source_type := getitem dict_data "source_type" in
  let? v_source_json := getitem dict_data "source_json" in
  let? v_source_data := loads v_source_json in
  let? git :=
    (if eq_int v_source_type SourceType.GIT_AND_TITO
        || eq_int v_source_type SourceType.GIT_AND_MOCK
     then
       let? u := getitem v_source_data "git_url" in
       let? b := getitem v_source_data "git_branch" in
       inr (u, b)
     else inr (PNone, PNone)) in
  let task (url tito_dir test mock_dir : pyval) : ImportTask :=
    {| task_id := v_task_id; user := v_user; project := v_project;
       branch := v_branch; source_type := v_source_type;
       source_json := v_source_json; source_data := v_source_data;
       package_name := PNone; package_version := PNone; git_hash := PNone;
       package_url := url; git_url := git.1; git_branch := git.2;
       tito_git_dir := tito_dir; tito_test := test;
       mock_git_dir := mock_dir |} in
  if eq_int v_source_type SourceType.SRPM_LINK then
    let? j := loads v_source_json in
    let? url := getitem j "url" in
    inr (task url PNone PNone PNone)
  else if eq_int v_source_type SourceType.SRPM_UPLOAD then
    let? json_tmp := getitem v_source_data "tmp" in
    let? json_pkg := getitem v_source_data "pkg" in
    inr (task (PStr (frontend_base_url opts +:+ "/tmp/" +:+ py_str json_tmp
                     +:+ "/" +:+ py_str json_pkg))
              PNone PNone PNone)
  else if eq_int v_source_type SourceType.GIT_AND_TITO then
    let? d := getitem v_source_data "git_dir" in
    let? t := getitem v_source_data "tito_test" in
    inr (task PNone d t PNone)
  else if eq_int v_source_type SourceType.GIT_AND_MOCK then
    let? d := getitem v_source_data "git_dir" in
    let? d' := getitem v_source_data "git_dir" in
    inr (task PNone d' PNone d)
  else inl PackageImportException.

(** [get_dict_for_frontend]: the success record. *)
Definition get_dict_for_frontend (t : ImportTask) : pyval :=
  PDict [ ("task_id", task_id t);
          ("pkg_name", package_name t);
          ("pkg_version", package_version t);
          ("repo_name", reponame t);
          ("git_hash", git_hash t) ].

End defs.
End Task.

(** ** dist_git_importer.py: the source providers *)

Inductive provider_class : Type :=
| SrpmUrlProvider
| GitAndTitoProvider
| GitAndMockProvider.

(** [GitProvider] instance: [tmp] is the clone (scratch) directory,
    [tmp_dest] the build-output directory. *)
Record GitProviderObj : Type := {
  gp_task : ImportTask;
  gp_target_path : string;
  gp_tmp : string;
  gp_tmp_dest : string;
  gp_git_subdir : option string
}.

Module GitProvider.
Section defs.
Context `{Env}.

Definition fail (kind : string) : exn := GitAndTitoException (FailTypeEnum kind).

(** [GitProvider.__init__]. *)
Definition init (task : ImportTask) (target_path : string) : M GitProviderObj :=
  let! tmp := mkdtemp in
  let! tmp_dest := mkdtemp in
  ret {| gp_task := task; gp_target_path := target_path;
         gp_tmp := tmp; gp_tmp_dest := tmp_dest; gp_git_subdir := None |}.

Definition on_OSError {A} (e : exn) : exn → option (M A) := fun x =>
  match x with
  | Builtin OSError => Some (raise e)
  | _ => None
  end.

(** [clone]: returns the provider with [git_subdir] set. *)
Definition clone (self : GitProviderObj) : M GitProviderObj :=
  (* 1. clone the repo *)
  let! cmd := argv [PStr "git"; PStr "clone"; git_url (gp_task self)] in
  let! r := try_except (Popen (Argv cmd) (Some (gp_tmp self)))
                       (on_OSError (fail "git_clone_failed")) in
  let '(output, error, _) := r in
  if negb (String.eqb error "") then raise (fail "git_clone_failed") else
  (* 1b. get dir name *)
  let! r := try_except (Popen (Argv ["ls"]) (Some (gp_tmp self)))
                       (on_OSError (fail "tito_wrong_directory_in_git")) in
  let '(output, error, _) := r in
  if negb (String.eqb error "") then raise (fail "tito_wrong_directory_in_git") else
  let! git_dir_name :=
    (if negb (String.eqb output "") then
       match PyStr.split output with
       | [n] => ret n
       | _ => raise (fail "tito_wrong_directory_in_git")
       end
     else raise (fail "tito_wrong_directory_in_git")) in
  ret {| gp_task := gp_task self; gp_target_path := gp_target_path self;
         gp_tmp := gp_tmp self; gp_tmp_dest := gp_tmp_dest self;
         gp_git_subdir :=
           Some (gp_tmp self +:+ "/" +:+ git_dir_name +:+ "/"
                 +:+ py_str (tito_git_dir (gp_task self))) |}.

(** [checkout]. *)
Definition checkout (self : GitProviderObj) : M unit :=
  let b := git_branch (gp_task self) in
  if truthy b && ne_str b "master" then
    let! cmd := argv [PStr "git"; PStr "checkout"; b] in
    let! r := try_except (Popen (Argv cmd) (gp_git_subdir self))
                         (on_OSError (fail "tito_git_checkout_error")) in
    let '(output, error, _) := r in
    if negb (String.eqb error "") then raise (fail "tito_git_checkout_error")
    else ret tt
  else ret tt.

Definition is_srpm (f : string) : bool := PyStr.endswith f ".src.rpm".

(** [copy]: 4. copy srpm to the target destination. *)
Definition copy (self : GitProviderObj) : M unit :=
  let! dest_files := os_listdir (gp_tmp_dest self) in
  let dest_srpms := List.filter is_srpm dest_files in
  let! srpm_name :=
    (match dest_srpms with
     | [n] => ret n
     | _ => raise (fail "tito_srpm_build_error")
     end) in
  shutil_copyfile (gp_tmp_dest self +:+ "/" +:+ srpm_name) (gp_target_path self).

(** [clean]: 5. delete temps. *)
Definition clean (self : GitProviderObj) : M unit :=
  shutil_rmtree (gp_tmp self) >>>
  shutil_rmtree (gp_tmp_dest self).

(** [get_srpm], with the [build] of the subclass. *)
Definition get_srpm (build : GitProviderObj → M unit) (self : GitProviderObj)
  : M unit :=
  let! self := clone self in
  checkout self >>>
  build self >>>
  copy self >>>
  clean self.

End defs.
End GitProvider.

Module GitAndTito.
Section defs.
Context `{Env}.

(** The command line of the tito run. *)
Definition build_cmd (self : GitProviderObj) : list string :=
  (["tito"; "build"; "-o"; gp_tmp_dest self; "--srpm"]
   ++ (if truthy (tito_test (gp_task self)) then ["--test"] else []))%list.

(** [GitAndTitoProvider.build]. *)
Definition build (self : GitProviderObj) : M unit :=
  let cmd := build_cmd self in
  let! r := try_except (Popen (Argv cmd) (gp_git_subdir self))
              (GitProvider.on_OSError (GitProvider.fail "tito_srpm_build_error")) in
  let '(output, error, _) := r in
  if negb (String.eqb error "")
  then raise (GitProvider.fail "tito_srpm_build_error")
  else ret tt.

Definition get_srpm : GitProviderObj → M unit := GitProvider.get_srpm build.

End defs.
End GitAndTito.

Module GitAndMock.
Section defs.
Context `{Env}.

(** [os.listdir(self.git_subdir)]; [git_subdir] is a string once [clone]
    has run. *)
Definition listdir_subdir (self : GitProviderObj) : M (list string) :=
  match gp_git_subdir self with
  | Some d => os_listdir d
  | None => raise (Builtin TypeError)
  end.

Definition build_cmd (self : GitProviderObj) (package_name : string) : list string :=
  ["/usr/bin/mock"; "-r"; "epel-7-x86_64";
   "--scm-enable";
   "--scm-option"; "method=git";
   "--scm-option"; "package=" +:+ package_name;
   "--scm-option"; "branch=" +:+ py_str (git_branch (gp_task self));
   "--scm-option"; "write_tar=True";
   "--scm-option";
     "git_get=" +:+ String (ascii_of_nat 34) ("git clone "
       +:+ py_str (git_url (gp_task self)) +:+ String (ascii_of_nat 34) "");
   "--buildsrpm"; "--resultdir=" +:+ gp_tmp_dest self].

(** [GitAndMockProvider.build]. *)
Definition build (self : GitProviderObj) : M unit :=
  let! files := listdir_subdir self in
  match List.filter (fun x => PyStr.endswith x ".spec") files with
  | [spec] =>
      let package_name := PyStr.remove_all ".spec" spec in
      let cmd := build_cmd self package_name in
      (* except OSError: log.error(error) reads [error], which is assigned
         only after Popen and communicate have returned *)
      let! r := try_except
                  (Popen (Shell (PyStr.join " " cmd)) (gp_git_subdir self))
                  (fun e => match e with
                            | Builtin OSError => Some (raise (Builtin UnboundLocalError))
                            | _ => None
                            end) in
      let '(output, error, returncode) := r in
      if negb (returncode =? 0)
      then raise (GitProvider.fail "tito_srpm_build_error")
      else ret tt
  | _ => raise (GitProvider.fail "tito_srpm_build_error")
  end.

Definition get_srpm : GitProviderObj → M unit := GitProvider.get_srpm build.

End defs.
End GitAndMock.

Module SrpmUrl.
Section defs.
Context `{Env}.

Definition any_to {A} (e : exn) : exn → option (M A) :=
  fun _ => Some (raise e).

(** [SrpmUrlProvider.get_srpm]. *)
Definition get_srpm (task : ImportTask) (target_path : string) : M unit :=
  let! r := try_except (requests_get (package_url task))
                       (any_to PackageDownloadException) in
  let '(status_code, chunks, stream_ok, _) := r in
  if (200 <=? status_code) && (status_code <? 400) then
    try_except (write_stream target_path chunks stream_ok)
               (any_to PackageDownloadException)
  else raise PackageDownloadException.

End defs.
End SrpmUrl.

(** [SourceProvider]: the proxy that picks the provider class. *)
Record SourceProviderObj : Type := {
  sp_task : ImportTask;
  sp_target_path : string;
  sp_provider : provider_class
}.

Module SourceProvider.
Section defs.
Context `{Env}.

(** [SourceProvider.__init__]. *)
Definition init (task : ImportTask) (target_path : string) : res SourceProviderObj :=
  let make c := {| sp_task := task; sp_target_path := target_path;
                   sp_provider := c |} in
  if eq_int (source_type task) SourceType.SRPM_LINK then
    inr (make SrpmUrlProvider)
  else if eq_int (source_type task) SourceType.SRPM_UPLOAD then
    inr (make SrpmUrlProvider)
  else if eq_int (source_type task) SourceType.GIT_AND_TITO then
    inr (make GitAndTitoProvider)
  else if eq_int (source_type task) SourceType.GIT_AND_MOCK then
    inr (make GitAndMockProvider)
  else inl PackageImportException.

(** [self.provider(self.task, self.target_path).get_srpm()]. *)
Definition get_srpm (self : SourceProviderObj) : M unit :=
  match sp_provider self with
  | SrpmUrlProvider => SrpmUrl.get_srpm (sp_task self) (sp_target_path self)
  | GitAndTitoProvider =>
      let! p := GitProvider.init (sp_task self) (sp_target_path self) in
      GitAndTito.get_srpm p
  | GitAndMockProvider =>
      let! p := GitProvider.init (sp_task self) (sp_target_path self) in
      GitAndMock.get_srpm p
  end.

End defs.
End SourceProvider.

(** ** dist_git_importer.py: the importer *)

Record DistGitImporterObj : Type := {
  imp_opts : Opts;
  imp_get_url : string;
  imp_upload_url : string
}.

(** How a bounded observation of the polling loop ends. *)
Inductive loop_end : Type :=
| LoopExited        (* the [while] condition was found false *)
| LoopRunning.      (* still looping when the observation stops *)

Module DistGitImporter.
Section defs.
Context `{Env}.

(** [DistGitImporter.__init__]; the running flag lives in the [world]. *)
Definition init (opts : Opts) : DistGitImporterObj :=
  {| imp_opts := opts;
     imp_get_url := frontend_base_url opts +:+ "/backend/importing/";
     imp_upload_url := frontend_base_url opts +:+ "/backend/import-completed/" |}.

(** [try_to_obtain_new_task]: [None] is Python's [None]. *)
Definition try_to_obtain_new_task (self : DistGitImporterObj)
  : M (option ImportTask) :=
  try_except
    (let! r := requests_get (PStr (imp_get_url self)) in
     let '(_, _, _, js) := r in
     let! body := lift (match js with
                        | Some j => inr j
                        | None => inl (Builtin ValueError)
                        end) in
     let! builds_list := lift (getitem body "builds") in
     let! n := lift (py_len builds_list) in
     if (n =? 0)%nat then ret None
     else
       let! job := lift (first_item builds_list) in
       let! task := lift (Task.from_dict job (imp_opts self)) in
       ret (Some task))
    (fun _ => Some (ret None)).

(** [git_import_srpm]. *)
Definition git_import_srpm (self : DistGitImporterObj) (task : ImportTask)
                           (filepath : string) : M pyval :=
  let! tmp := mkdtemp in
  try_finally
    (fun w =>
       let '(r, f) := do_git_srpm_import (imp_opts self) filepath task tmp w in
       (r, set_fs f (emit (EvGitImport filepath) w)))
    (shutil_rmtree tmp).

(** [pkg_name_evr]. *)
Definition pkg_name_evr (srpm_path : string) : M (string * string) :=
  let cmd := ["rpm"; "-qp"; "--nosignature"; "--qf";
              "%{NAME} %{EPOCH} %{VERSION} %{RELEASE}"; srpm_path] in
  let! r := try_except (Popen (Argv cmd) None)
                       (GitProvider.on_OSError PackageQueryException) in
  let '(output, error, _) := r in
  if negb (String.eqb error "") then raise PackageQueryException else
  match PyStr.split_on " " output with
  | [name; epoch; version; release] =>
      (* Epoch is an integer or '(none)' if not set *)
      if PyStr.isdigit epoch
      then ret (name, epoch +:+ ":" +:+ version +:+ "-" +:+ release)
      else ret (name, version +:+ "-" +:+ release)
  | _ => raise PackageQueryException
  end.

(** [after_git_import]. *)
Definition after_git_import (self : DistGitImporterObj) : M unit :=
  let! _ := subprocess_call [PStr "/usr/share/dist-git/cgit_pkg_list.sh";
                             PStr (cgit_pkg_list_location (imp_opts self))] in
  ret tt.

(** [before_git_import]. *)
Definition before_git_import (task : ImportTask) : M unit :=
  let! _ := subprocess_call [PStr "/usr/share/dist-git/git_package.sh";
                             Task.reponame task] in
  let! _ := subprocess_call [PStr "/usr/share/dist-git/git_branch.sh";
                             branch task; Task.reponame task] in
  ret tt.

(** [post_back]: could raise an error related to the network connection. *)
Definition post_back (self : DistGitImporterObj) (data_dict : pyval) : M unit :=
  requests_post (imp_upload_url self) data_dict.

(** [post_back_safe]: ignores any error. *)
Definition post_back_safe (self : DistGitImporterObj) (data_dict : pyval) : M unit :=
  try_except (post_back self data_dict) (fun _ => Some (ret tt)).

(** The failure record. *)
Definition failure_dict (task : ImportTask) (error : string) : pyval :=
  PDict [ ("task_id", task_id task); ("error", PStr error) ].

(** The statements of the [try] block of [do_import] up to the success
    post; yields the task with its result fields filled in. *)
Definition stages (self : DistGitImporterObj) (task : ImportTask)
                  (fetched_srpm_path : string) : M ImportTask :=
  let! provider := lift (SourceProvider.init task fetched_srpm_path) in
  SourceProvider.get_srpm provider >>>
  let! nv := pkg_name_evr fetched_srpm_path in
  let task := Task.set_package (PStr nv.1) (PStr nv.2) task in
  before_git_import task >>>
  let! h := git_import_srpm self task fetched_srpm_path in
  let task := Task.set_git_hash h task in
  after_git_import self >>>
  ret task.

(** The whole [try] block of [do_import]. *)
Definition pipeline (self : DistGitImporterObj) (task : ImportTask)
                    (fetched_srpm_path : string) : M unit :=
  let! task := stages self task fetched_srpm_path in
  (* sending a response - success *)
  post_back self (Task.get_dict_for_frontend task).

(** The error string each [except] clause of [do_import] reports. *)
Definition error_kind (e : exn) : string :=
  match e with
  | PackageImportException => "git_import_failed"
  | PackageDownloadException => "srpm_download_failed"
  | PackageQueryException => "srpm_query_failed"
  | GitAndTitoException arg => py_str arg        (* str(e) *)
  | Builtin _ => "unknown_error"
  end.

(** What the log message of each [except] clause of [do_import] formats
    with [str.format]: the package URL, the git URL, or nothing. *)
Definition logged (task : ImportTask) (e : exn) : list pyval :=
  match e with
  | PackageImportException | PackageDownloadException | PackageQueryException =>
      [package_url task]
  | GitAndTitoException _ => [git_url task]
  | Builtin _ => []
  end.

(** The body of the [except] clause that catches [e]. *)
Definition on_failure (self : DistGitImporterObj) (task : ImportTask) (e : exn)
  : M unit :=
  str_format (logged task e) >>>
  post_back_safe self (failure_dict task (error_kind e)).

(** [do_import]. *)
Definition do_import (self : DistGitImporterObj) (task : ImportTask) : M unit :=
  str_format [task_id task; package_url task] >>>
  let! tmp_root := mkdtemp in
  let fetched_srpm_path := os_path_join tmp_root "package.src.rpm" in
  try_finally
    (try_except
       (pipeline self task fetched_srpm_path)
       (fun e => Some (on_failure self task e)))
    (shutil_rmtree_ignore_errors tmp_root).

(** One turn of the [while] loop of [run]. *)
Definition turn (self : DistGitImporterObj) : M unit :=
  let! mb_task := try_to_obtain_new_task self in
  match mb_task with
  | None => log EvSleep                     (* time.sleep(opts.sleep_time) *)
  | Some task => do_import self task
  end.

(** Nothing in the class clears [is_running]; whoever does it does it from
    outside, between two evaluations of the loop condition. *)
Definition interference : M unit := fun w =>
  if stop_request w then (inr tt, emit EvStop (set_running false w))
  else (inr tt, w).

Fixpoint loop (self : DistGitImporterObj) (turns : nat) : M loop_end :=
  match turns with
  | O => ret LoopRunning
  | S n => fun w =>
      if w_running w
      then (turn self >>> interference >>> loop self n) w
      else (inr LoopExited, w)
  end.

(** [run], observed for at most [turns] turns of its loop. *)
Definition run (self : DistGitImporterObj) (turns : nat) : M loop_end :=
  (fun w => (inr tt, set_running true w)) >>> loop self turns.

End defs.
End DistGitImporter.

(** ** providers/custom.py *)

Record CustomProviderObj : Type := {
  cp_outdir : string;
  cp_chroot : pyval;
  cp_inner_resultdir : pyval;
  cp_builddeps : pyval;
  cp_hook_payload_url : pyval;
  cp_workdir : string;
  cp_file_script : string
}.

Module CustomProvider.
Section defs.
Context `{Env}.

Definition inner_workdir : string := "/workdir".

(** [source_json.get(key)]; only a dict has [get]. *)
Definition dict_get (v : pyval) (k : string) : res pyval :=
  match v with
  | PDict d => inr (match assoc k d with Some x => x | None => PNone end)
  | _ => inl (Builtin AttributeError)
  end.

(** [key in source_json] for a dict. *)
Definition has_key (v : pyval) (k : string) : bool :=
  match v with
  | PDict d => match assoc k d with Some _ => true | None => false end
  | _ => false
  end.

(** [with open(file_script, 'w') as script: script.write(source_json['script'])]:
    the file is opened, and so emptied, before the script is looked up. *)
Definition write_script (file_script : string) (source_json : pyval) : M unit :=
  fun w =>
    if write_ok file_script w then
      let opened := set_fs (put_file file_script "" (w_fs w)) w in
      match getitem source_json "script" with
      | inr (PStr body) => write_file file_script body w
      | inr _ => (inl (Builtin TypeError), opened)
      | inl e => (inl e, opened)
      end
    else (inl (Builtin IOError), w).

(** [CustomProvider.__init__]; [frontend_url] is
    [config.get("main", "frontend_url")].  The constructor of the base class
    only stores its arguments. *)
Definition init (source_json : pyval) (outdir frontend_url : string)
  : M CustomProviderObj :=
  let! chroot := lift (dict_get source_json "chroot") in
  let! inner_resultdir := lift (dict_get source_json "resultdir") in
  let! builddeps := lift (dict_get source_json "builddeps") in
  let! hook :=
    (if has_key source_json "hook_data" then
       let! tmp := lift (getitem source_json "tmp") in
       ret (PStr (frontend_url +:+ "/tmp/" +:+ py_str tmp +:+ "/hook_payload"))
     else ret PNone) in
  let file_script := os_path_join outdir "script" in
  let! _ := write_script file_script source_json in
  ret {| cp_outdir := outdir;
         cp_chroot := chroot;
         cp_inner_resultdir := inner_resultdir;
         cp_builddeps := builddeps;
         cp_hook_payload_url := hook;
         cp_workdir := outdir;
         cp_file_script := file_script |}.

Definition mock_config (chroot : pyval) : string :=
  "include('/etc/mock/" +:+ py_str chroot +:+ ".cfg')" +:+ String (ascii_of_nat 10) ""
  +:+ "config_opts['rpmbuild_networking'] = True" +:+ String (ascii_of_nat 10) ""
  +:+ "config_opts['use_host_resolv'] = True" +:+ String (ascii_of_nat 10) ""
  +:+ "config_opts['plugin_conf']['tmpfs_opts']['keep_mounted'] = True"
  +:+ String (ascii_of_nat 10) "".

(** [helpers.run_cmd(cmd)] and [helpers.build_srpm(srcdir, outdir)]. *)
Definition helpers_run_cmd (cmd : list pyval) : M unit := fun w =>
  let w1 := emit (EvRunCmd cmd) w in
  match run_cmd cmd w with
  | (true, f) => (inr tt, set_fs f w1)
  | (false, f) => (inl (Builtin RuntimeError), set_fs f w1)
  end.

Definition helpers_build_srpm (srcdir outdir : string) : M unit := fun w =>
  let w1 := emit (EvBuildSrpm srcdir outdir) w in
  match build_srpm srcdir outdir w with
  | (true, f) => (inr tt, set_fs f w1)
  | (false, f) => (inl (Builtin RuntimeError), set_fs f w1)
  end.

(** The part of [produce_srpm] under [if self.hook_payload_url:];
    yields what is appended to [cmd]. *)
Definition fetch_hook_payload (self : CustomProviderObj) : M (list pyval) :=
  if truthy (cp_hook_payload_url self) then
    let hook_payload_file := os_path_join (cp_outdir self) "hook_payload" in
    let! response := requests_get (cp_hook_payload_url self) in
    let '(status_code, chunks, stream_ok, _) := response in
    raise_for_status status_code >>>
    write_stream hook_payload_file chunks stream_ok >>>
    ret [PStr "--hook-payload-file"; PStr hook_payload_file]
  else ret [].

(** [os.path.join] refuses what is not a string. *)
Definition join_resultdir (v : pyval) : M string :=
  match v with
  | PStr s => ret (normpath (os_path_join inner_workdir s))
  | _ => raise (Builtin TypeError)
  end.

(** The command line that [produce_srpm] starts from. *)
Definition base_cmd (self : CustomProviderObj) (mock_config_file : string)
  : list pyval :=
  [PStr "unbuffer"; PStr "copr-sources-custom";
   PStr "--workdir"; PStr inner_workdir;
   PStr "--mock-config"; PStr mock_config_file;
   PStr "--script"; PStr (cp_file_script self)]
  ++ (if truthy (cp_builddeps self)
      then [PStr "--builddeps"; cp_builddeps self] else []).

(** The statements of [produce_srpm] from [inner_resultdir = ...] on: the
    source-preparation tool and the sandbox manager are run here. *)
Definition sandbox (self : CustomProviderObj) (mock_config_file : string)
                   (cmd : list pyval) : M unit :=
  let! rd :=
    (if truthy (cp_inner_resultdir self) then
       (* User wishes to re-define resultdir. *)
       let! d := join_resultdir (cp_inner_resultdir self) in
       ret ([PStr "--resultdir"; cp_inner_resultdir self], d)
     else ret ([], inner_workdir)) in
  let cmd := cmd ++ rd.1 in
  let inner_resultdir := rd.2 in
  (* prepare the sources *)
  helpers_run_cmd cmd >>>
  (* copy the sources out into workdir *)
  let mock := [PStr "mock"; PStr "-r"; PStr mock_config_file] in
  let srpm_srcdir := os_path_join (cp_workdir self) "srcdir" in
  helpers_run_cmd
    (mock ++ [PStr "--copyout"; PStr inner_resultdir; PStr srpm_srcdir]) >>>
  helpers_run_cmd (mock ++ [PStr "--scrub"; PStr "all"]) >>>
  helpers_build_srpm srpm_srcdir (cp_outdir self) >>>
  shutil_rmtree srpm_srcdir.

(** [produce_srpm]. *)
Definition produce_srpm (self : CustomProviderObj) : M unit :=
  let mock_config_file := os_path_join (cp_outdir self) "mock-config.cfg" in
  write_file mock_config_file (mock_config (cp_chroot self)) >>>
  let cmd := base_cmd self mock_config_file in
  let! hook_args := fetch_hook_payload self in
  sandbox self mock_config_file (cmd ++ hook_args).

End defs.
End CustomProvider.

(** ** Sample surroundings

    Concrete surroundings on which the development is run: every program
    launches and exits with status 0 unless told otherwise. *)

Module Sample.

(** A [str()] good enough for the values the samples use. *)
Definition show (v : pyval) : string :=
  match v with
  | PNone => "None"
  | PBool true => "True"
  | PBool false => "False"
  | PInt z => pretty z
  | PStr s => s
  | PList _ => "[...]"
  | PDict _ => "{...}"
  end.

(** The sandbox manager: [--copyout] creates the directory named last. *)
Definition sandbox_manager (args : list pyval) (w : world) : bool * filesystem :=
  match existsb (fun a => negb (ne_str a "--copyout")) args, last args with
  | true, Some (PStr d) =>
      (true, {| fs_dirs := {[ d ]} ∪ fs_dirs (w_fs w);
                fs_files := fs_files (w_fs w) |})
  | _, _ => (true, w_fs w)
  end.

(** [str.format] takes every value but a string with a byte above 127. *)
Definition ascii_only (v : pyval) : bool :=
  match v with
  | PStr s => PyStr.all_chars (fun c => (nat_of_ascii c <? 128)%nat) s
  | _ => true
  end.

Definition env_of
    (proc : cmdline → option string → world → proc_result * filesystem)
    (get : string → world → http_result)
    (post : string → pyval → world → bool)
    (disk : string → world → bool) : Env :=
  {| popen := proc;
     call := fun _ w => (Some 0, w_fs w);
     http_get := get;
     http_post := post;
     write_ok := disk;
     tmp_ok := fun _ => true;
     encodable := ascii_only;
     do_git_srpm_import := fun _ _ _ _ w => (inr (PStr "6d1f3a"), w_fs w);
     run_cmd := sandbox_manager;
     build_srpm := fun _ _ w => (true, w_fs w);
     normpath := fun p => p;
     py_str := show;
     json_loads := fun s => if String.eqb s "{}" then Some (PDict []) else None;
     FailTypeEnum := PStr;
     stop_request := fun _ => false |}.

Definition empty_fs : filesystem := {| fs_dirs := ∅; fs_files := ∅ |}.

Definition w0 : world := {| w_fs := empty_fs; w_trace := []; w_running := false |}.

(** A process that prints [output] on stdout, [error] on stderr, exits with
    [rc] and leaves the file system alone. *)
Definition prints (output error : string) (rc : Z)
  : cmdline → option string → world → proc_result * filesystem :=
  fun _ _ w => (Completed output error rc, w_fs w).

Definition serves (status : Z) (chunks : list string) : string → world → http_result :=
  fun _ _ => Response status chunks true None.

(** Every post arrives; every path can be written. *)
Definition accepts : string → pyval → world → bool := fun _ _ _ => true.

Definition writable : string → world → bool := fun _ _ => true.

Definition opts : Opts :=
  {| frontend_base_url := "http://frontend"; frontend_auth := "secret";
     cgit_pkg_list_location := "/var/lib/copr-dist-git/cgit_pkg_list";
     sleep_time := 15 |}.

Definition importer : DistGitImporterObj := DistGitImporter.init opts.

(** A task of source type SRPM_LINK. *)
Definition link_task : ImportTask :=
  {| task_id := PInt 7; user := PStr "alice"; project := PStr "tools";
     branch := PStr "f40"; source_type := PInt 1;
     source_json := PStr "{'url': 'http://x/y.src.rpm'}";
     source_data := PDict [("url", PStr "http://x/y.src.rpm")];
     package_name := PNone; package_version := PNone; git_hash := PNone;
     package_url := PStr "http://x/y.src.rpm";
     git_url := PNone; git_branch := PNone;
     tito_git_dir := PNone; tito_test := PNone; mock_git_dir := PNone |}.

(** A task of source type GIT_AND_TITO. *)
Definition tito_task : ImportTask :=
  {| task_id := PInt 8; user := PStr "alice"; project := PStr "tools";
     branch := PStr "f40"; source_type := PInt 3;
     source_json := PStr "{...}";
     source_data := PDict [];
     package_name := PNone; package_version := PNone; git_hash := PNone;
     package_url := PNone;
     git_url := PStr "http://git/repo.git"; git_branch := PStr "master";
     tito_git_dir := PStr ""; tito_test := PBool true; mock_git_dir := PNone |}.

(** A task whose owner is missing: [reponame] is [None]. *)
Definition ownerless_task : ImportTask :=
  {| task_id := PInt 9; user := PNone; project := PStr "tools";
     branch := PStr "f40"; source_type := PInt 1;
     source_json := PStr "{'url': 'http://x/y.src.rpm'}";
     source_data := PDict [("url", PStr "http://x/y.src.rpm")];
     package_name := PNone; package_version := PNone; git_hash := PNone;
     package_url := PStr "http://x/y.src.rpm";
     git_url := PNone; git_branch := PNone;
     tito_git_dir := PNone; tito_test := PNone; mock_git_dir := PNone |}.

(** A queue owner that hands out the job [job]. *)
Definition offers (job : pyval) : string → world → http_result :=
  fun _ _ => Response 200 [] true (Some (PDict [("builds", PList [job])])).

(** A job without its fields, a job whose payload does not parse, and a job
    of a source type that does not exist. *)
Definition job (source_type : Z) (source_json : string) : pyval :=
  PDict [("task_id", PInt 1); ("user", PStr "alice"); ("project", PStr "tools");
         ("branch", PStr "f40"); ("source_type", PInt source_type);
         ("source_json", PStr source_json)].

(** A custom-script build triggered by a webhook. *)
Definition custom : CustomProviderObj :=
  {| cp_outdir := "/results";
     cp_chroot := PStr "fedora-rawhide-x86_64";
     cp_inner_resultdir := PNone;
     cp_builddeps := PNone;
     cp_hook_payload_url := PStr "http://frontend/tmp/x1/hook_payload";
     cp_workdir := "/results";
     cp_file_script := "/results/script" |}.

(** A queue owner that cannot be reached. *)
Definition unreachable : string → world → http_result := fun _ _ => GetFailed.

(** A git host and a tito that behave: [git clone] is silent, [ls] shows the
    one directory [repo], and [tito build -o dest --srpm] leaves one SRPM
    and a tarball in [dest]. *)
Definition git_host : cmdline → option string → world → proc_result * filesystem :=
  fun cmd _ w =>
    match cmd with
    | Argv ("ls" :: _) => (Completed "repo" "" 0, w_fs w)
    | Argv ("tito" :: "build" :: "-o" :: dest :: _) =>
        (Completed "Wrote: y-1-1.src.rpm" "" 0,
         {| fs_dirs := fs_dirs (w_fs w);
            fs_files := <[ dest +:+ "/y-1-1.src.rpm" := "srpm bytes" ]>
                          (<[ dest +:+ "/y-1.tar.gz" := "tarball" ]>
                             (fs_files (w_fs w))) |})
    | _ => (Completed "" "" 0, w_fs w)
    end.

(** The same surroundings, with a stop requested in every turn. *)
Definition stopping (E : Env) : Env :=
  {| popen := @popen E; call := @call E; http_get := @http_get E;
     http_post := @http_post E; write_ok := @write_ok E;
     tmp_ok := @tmp_ok E; encodable := @encodable E;
     do_git_srpm_import := @do_git_srpm_import E;
     run_cmd := @run_cmd E; build_srpm := @build_srpm E;
     normpath := @normpath E; py_str := @py_str E;
     json_loads := @json_loads E; FailTypeEnum := @FailTypeEnum E;
     stop_request := fun _ => true |}.

(** The payload of a custom-script build triggered by a webhook. *)
Definition custom_source_json : pyval :=
  PDict [("script", PStr "make srpm"); ("chroot", PStr "fedora-rawhide-x86_64");
         ("hook_data", PBool true); ("tmp", PStr "x1")].

(** What [json.loads] makes of four payloads, one per source type. *)
Definition payloads (text : string) : option pyval :=
  if String.eqb text "{url: http://x/y.src.rpm}" then
    Some (PDict [("url", PStr "http://x/y.src.rpm")])
  else if String.eqb text "{tmp: tmp42, pkg: y.src.rpm}" then
    Some (PDict [("tmp", PStr "tmp42"); ("pkg", PStr "y.src.rpm")])
  else if String.eqb text "{git_url: http://git/repo.git, tito}" then
    Some (PDict [("git_url", PStr "http://git/repo.git");
                 ("git_branch", PStr "devel"); ("git_dir", PStr "sub");
                 ("tito_test", PBool true)])
  else if String.eqb text "{git_url: http://git/repo.git, mock}" then
    Some (PDict [("git_url", PStr "http://git/repo.git");
                 ("git_branch", PStr "devel"); ("git_dir", PStr "sub")])
  else None.

(** Surroundings in which these payloads parse. *)
Definition decoding : Env :=
  let E := env_of (prints "" "" 0) (serves 200 []) (fun _ _ _ => true)
             (fun _ _ => true) in
  {| popen := @popen E; call := @call E; http_get := @http_get E;
     http_post := @http_post E; write_ok := @write_ok E;
     tmp_ok := @tmp_ok E; encodable := @encodable E;
     do_git_srpm_import := @do_git_srpm_import E;
     run_cmd := @run_cmd E; build_srpm := @build_srpm E;
     normpath := @normpath E; py_str := @py_str E;
     json_loads := payloads; FailTypeEnum := @FailTypeEnum E;
     stop_request := @stop_request E |}.

(** A download URL with the two bytes of an e acute in its file name. *)
Definition unicode_url : string :=
  "http://x/" +:+ String (ascii_of_nat 195) (String (ascii_of_nat 169) ".src.rpm").

(** A queue owner that hands out one SRPM_LINK job with that URL. *)
Definition unicode_queue : Env :=
  let E := env_of (prints "" "" 0)
             (offers (job 1 "{url: <unicode_url>}"))
             (fun _ _ _ => true) (fun _ _ => true) in
  {| popen := @popen E; call := @call E; http_get := @http_get E;
     http_post := @http_post E; write_ok := @write_ok E;
     tmp_ok := @tmp_ok E; encodable := @encodable E;
     do_git_srpm_import := @do_git_srpm_import E;
     run_cmd := @run_cmd E; build_srpm := @build_srpm E;
     normpath := @normpath E; py_str := @py_str E;
     json_loads := fun text =>
       if String.eqb text "{url: <unicode_url>}"
       then Some (PDict [("url", PStr unicode_url)]) else None;
     FailTypeEnum := @FailTypeEnum E;
     stop_request := @stop_request E |}.

(** A queue owner that hands out one SRPM_LINK job, on a host where no
    temporary directory can be made. *)
Definition no_tmp_queue : Env :=
  let E := env_of (prints "" "" 0)
             (offers (job 1 "{url: http://x/y.src.rpm}"))
             (fun _ _ _ => true) (fun _ _ => true) in
  {| popen := @popen E; call := @call E; http_get := @http_get E;
     http_post := @http_post E; write_ok := @write_ok E;
     tmp_ok := fun _ => false; encodable := @encodable E;
     do_git_srpm_import := @do_git_srpm_import E;
     run_cmd := @run_cmd E; build_srpm := @build_srpm E;
     normpath := @normpath E; py_str := @py_str E;
     json_loads := payloads; FailTypeEnum := @FailTypeEnum E;
     stop_request := @stop_request E |}.

(** The success post is lost, every failure post arrives. *)
Definition drops_success : string → pyval → world → bool :=
  fun _ data _ => CustomProvider.has_key data "error".

End Sample.

(** ** Vocabulary of the properties *)

(** [keeps R m]: running [m] relates the world before to the world after by
    [R], whatever [m] yields. *)
Definition keeps {A} (R : world → world → Prop) (m : M A) : Prop :=
  ∀ w, R w (m w).2.

(** The events that the stages of a task emit: everything but posts, sleeps
    and stops. *)
Definition stage_event (e : event) : bool :=
  match e with
  | EvPost _ _ | EvSleep | EvStop => false
  | _ => true
  end.

Definition no_space (s : string) : Prop := PyStr.has_char " " s = false.

(** The query that [pkg_name_evr] launches. *)
Definition rpm_query (srpm_path : string) : cmdline :=
  Argv ["rpm"; "-qp"; "--nosignature"; "--qf";
        "%{NAME} %{EPOCH} %{VERSION} %{RELEASE}"; srpm_path].

Definition is_post (e : event) : bool :=
  match e with EvPost _ _ => true | _ => false end.

Definition is_run_cmd (e : event) : bool :=
  match e with EvRunCmd _ => true | _ => false end.

(** The payloads posted so far. *)
Definition posts (w : world) : list event := List.filter is_post (w_trace w).

(** Three relations between the world before and the world after. *)
Definition same_posts (w w' : world) : Prop := posts w' = posts w.

Definition same_flag (w w' : world) : Prop := w_running w' = w_running w.

Definition extends (w w' : world) : Prop :=
  ∃ evs, w_trace w' = w_trace w ++ evs.

(** * Properties *)

(** ** Strings *)

Lemma append_cons (a : ascii) (p r : string) :
  String a p +:+ r = String a (p +:+ r).
Proof. reflexivity. Qed.

Lemma append_assoc (a b c : string) : (a +:+ b) +:+ c = a +:+ (b +:+ c).
Proof.
  induction a as [|x a IH]; [done|]. by rewrite !append_cons, IH.
Qed.

Lemma strip_prefix_app (p s r : string) :
  PyStr.strip_prefix p s = Some r → s = p +:+ r.
Proof.
  revert s. induction p as [|a p IH]; intros s Hs; simpl in *.
  - by inversion Hs.
  - destruct s as [|b s]; [discriminate|].
    destruct (Ascii.eqb a b) eqn:Hab; [|discriminate].
    apply Ascii.eqb_eq in Hab. subst b. rewrite append_cons. f_equal. by apply IH.
Qed.

Lemma strip_prefix_of_app (p r : string) :
  PyStr.strip_prefix p (p +:+ r) = Some r.
Proof.
  induction p as [|a p IH]; [done|].
  rewrite append_cons. simpl. by rewrite Ascii.eqb_refl.
Qed.

Lemma child_name_path (d p n : string) :
  child_name d p = Some n → p = d +:+ "/" +:+ n.
Proof.
  unfold child_name. intros Hc.
  destruct (PyStr.strip_prefix (d +:+ "/") p) as [r|] eqn:Hr; [|discriminate].
  destruct (negb (r =? "")%string && negb (PyStr.has_char "/" r)); [|discriminate].
  inversion Hc; subst r.
  apply strip_prefix_app in Hr. rewrite Hr. apply append_assoc.
Qed.

(** ** The file system *)

(** Every name that [os.listdir] reports is the name of a file or of a
    directory. *)
Lemma entries_lookup (d n : string) (f : filesystem) :
  n ∈ entries d f →
  is_Some (fs_files f !! (d +:+ "/" +:+ n)) ∨ d +:+ "/" +:+ n ∈ fs_dirs f.
Proof.
  unfold entries. intros Hn.
  apply list_elem_of_omap in Hn as (p & Hp & Hc).
  apply child_name_path in Hc. subst p.
  apply elem_of_elements, elem_of_union in Hp as [Hp|Hp]; [left|by right].
  by apply elem_of_dom.
Qed.

Lemma tmp_path_inj (a b : string) : tmp_path a = tmp_path b → a = b.
Proof. unfold tmp_path. apply String.app_inj. Qed.

(** [mkdtemp] never hands out a directory that exists. *)
Lemma mkdtemp_fresh (f : filesystem) :
  tmp_path (fresh (used_suffixes f)) ∉ fs_dirs f.
Proof.
  intros Hin.
  apply (is_fresh (used_suffixes f)).
  unfold used_suffixes. apply elem_of_set_omap.
  exists (tmp_path (fresh (used_suffixes f))).
  split; [exact Hin|]. apply strip_prefix_of_app.
Qed.

(** ** Frame conditions

    For a preorder [R] that tolerates changes of the file system and the
    events of the stages, every statement that emits only such events keeps
    [R]. *)

Section frame.
Context `{Env}.
Variable R : world → world → Prop.
Hypothesis R_refl : ∀ w, R w w.
Hypothesis R_trans : ∀ a b c, R a b → R b c → R a c.
Hypothesis R_fs : ∀ f w, R w (set_fs f w).
Hypothesis R_emit : ∀ e w, stage_event e = true → R w (emit e w).

Lemma keeps_ret {A} (a : A) : keeps R (ret a).
Proof. intros w. apply R_refl. Qed.

Lemma keeps_raise {A} (e : exn) : keeps R (@raise A e).
Proof. intros w. apply R_refl. Qed.

Lemma keeps_lift {A} (r : res A) : keeps R (lift r).
Proof. intros w. apply R_refl. Qed.

Lemma keeps_bind {A B} (m : M A) (k : A → M B) :
  keeps R m → (∀ a, keeps R (k a)) → keeps R (bind m k).
Proof.
  intros Hm Hk w. unfold bind. specialize (Hm w).
  destruct (m w) as [[e|a] w1]; simpl in *; [done|].
  eapply R_trans; [exact Hm|apply Hk].
Qed.

Lemma keeps_try_except {A} (m : M A) (h : exn → option (M A)) :
  keeps R m → (∀ e k, h e = Some k → keeps R k) → keeps R (try_except m h).
Proof.
  intros Hm Hh w. unfold try_except. specialize (Hm w).
  destruct (m w) as [[e|a] w1]; simpl in *; [|done].
  destruct (h e) as [k|] eqn:Hk; [|done].
  eapply R_trans; [exact Hm|by eapply Hh].
Qed.

Lemma keeps_try_finally {A} (m : M A) (f : M unit) :
  keeps R m → keeps R f → keeps R (try_finally m f).
Proof.
  intros Hm Hf w. unfold try_finally. specialize (Hm w).
  destruct (m w) as [r w1]; simpl in *. specialize (Hf w1).
  destruct (f w1) as [[e|[]] w2]; simpl in *; by eapply R_trans.
Qed.

Lemma keeps_log (e : event) : stage_event e = true → keeps R (log e).
Proof. intros He w. by apply R_emit. Qed.

Lemma keeps_mkdtemp : keeps R mkdtemp.
Proof.
  intros w. unfold mkdtemp. destruct (tmp_ok w); [apply R_fs|apply R_refl].
Qed.

Lemma keeps_str_format values : keeps R (str_format values).
Proof.
  intros w. unfold str_format. destruct (forallb _ _); apply R_refl.
Qed.

Lemma keeps_os_listdir d : keeps R (os_listdir d).
Proof. intros w. unfold os_listdir. case_decide; apply R_refl. Qed.

Lemma keeps_shutil_rmtree d : keeps R (shutil_rmtree d).
Proof.
  intros w. unfold shutil_rmtree. case_decide; [apply R_fs|apply R_refl].
Qed.

Lemma keeps_write_file p c : keeps R (write_file p c).
Proof.
  intros w. unfold write_file. destruct (write_ok p w); simpl; [|apply R_refl].
  eapply R_trans; [apply R_fs|by apply R_emit].
Qed.

Lemma keeps_shutil_copyfile a b : keeps R (shutil_copyfile a b).
Proof.
  intros w. unfold shutil_copyfile.
  destruct (fs_files (w_fs w) !! a); [apply keeps_write_file|apply R_refl].
Qed.

Lemma keeps_write_stream p ch ok : keeps R (write_stream p ch ok).
Proof.
  intros w. unfold write_stream. destruct (write_ok p w); [|apply R_refl].
  destruct ok; simpl; [|apply R_fs].
  eapply R_trans; [apply R_fs|by apply R_emit].
Qed.

Lemma keeps_argv l : keeps R (argv l).
Proof. intros w. unfold argv. destruct (str_args l); apply R_refl. Qed.

Lemma keeps_Popen cmd cwd : keeps R (Popen cmd cwd).
Proof.
  intros w. unfold Popen.
  destruct (popen cmd cwd w) as [[|o e rc] f]; simpl; [by apply R_emit|].
  eapply R_trans; [by apply (R_emit (EvPopen cmd cwd))|apply R_fs].
Qed.

Lemma keeps_subprocess_call args : keeps R (subprocess_call args).
Proof.
  unfold subprocess_call. apply keeps_bind; [apply keeps_argv|].
  intros a w. destruct (call a w) as [[rc|] f]; simpl; [|by apply R_emit].
  eapply R_trans; [by apply (R_emit (EvCall a))|apply R_fs].
Qed.

Lemma keeps_requests_get url : keeps R (requests_get url).
Proof.
  intros w. unfold requests_get.
  destruct url; simpl; try by apply R_emit.
  destruct (http_get s w); simpl; by apply R_emit.
Qed.

Lemma keeps_raise_for_status st : keeps R (raise_for_status st).
Proof. intros w. unfold raise_for_status. case_match; apply R_refl. Qed.

Lemma keeps_shutil_rmtree_ignore_errors d :
  keeps R (shutil_rmtree_ignore_errors d).
Proof.
  apply keeps_try_except; [apply keeps_shutil_rmtree|].
  intros e k [= <-]. apply keeps_ret.
Qed.

(** One step of a frame proof: peel a statement constructor, use a library
    call's frame lemma, or split on what the program tests. *)
Ltac frame_step :=
  first
    [ apply keeps_ret | apply keeps_raise | apply keeps_lift
    | apply keeps_mkdtemp | apply keeps_str_format
    | apply keeps_os_listdir | apply keeps_shutil_rmtree
    | apply keeps_shutil_rmtree_ignore_errors
    | apply keeps_write_file | apply keeps_shutil_copyfile
    | apply keeps_write_stream | apply keeps_argv | apply keeps_Popen
    | apply keeps_subprocess_call | apply keeps_requests_get
    | apply keeps_raise_for_status
    | apply keeps_bind; [|intros ?]
    | apply keeps_try_finally
    | apply keeps_try_except;
      [|intros ? ? ?; unfold GitProvider.on_OSError, SrpmUrl.any_to in *;
        repeat case_match; simplify_eq]
    | case_match ].

Ltac frame := repeat frame_step.

Lemma keeps_clone self : keeps R (GitProvider.clone self).
Proof. unfold GitProvider.clone. frame. Qed.

Lemma keeps_checkout self : keeps R (GitProvider.checkout self).
Proof. unfold GitProvider.checkout. frame. Qed.

Lemma keeps_copy self : keeps R (GitProvider.copy self).
Proof. unfold GitProvider.copy. frame. Qed.

Lemma keeps_clean self : keeps R (GitProvider.clean self).
Proof. unfold GitProvider.clean. frame. Qed.

Lemma keeps_git_get_srpm build self :
  (∀ p, keeps R (build p)) → keeps R (GitProvider.get_srpm build self).
Proof.
  intros Hb. unfold GitProvider.get_srpm.
  apply keeps_bind; [apply keeps_clone|intros p].
  apply keeps_bind; [apply keeps_checkout|intros _].
  apply keeps_bind; [apply Hb|intros _].
  apply keeps_bind; [apply keeps_copy|intros _]. apply keeps_clean.
Qed.

Lemma keeps_tito_build self : keeps R (GitAndTito.build self).
Proof. unfold GitAndTito.build. frame. Qed.

Lemma keeps_mock_build self : keeps R (GitAndMock.build self).
Proof. unfold GitAndMock.build, GitAndMock.listdir_subdir. frame. Qed.

Lemma keeps_url_get_srpm task target : keeps R (SrpmUrl.get_srpm task target).
Proof. unfold SrpmUrl.get_srpm. frame. Qed.

Lemma keeps_get_srpm self : keeps R (SourceProvider.get_srpm self).
Proof.
  unfold SourceProvider.get_srpm, GitProvider.init.
  destruct (sp_provider self).
  - apply keeps_url_get_srpm.
  - apply keeps_bind; [frame|intros p].
    apply keeps_git_get_srpm, keeps_tito_build.
  - apply keeps_bind; [frame|intros p].
    apply keeps_git_get_srpm, keeps_mock_build.
Qed.

Lemma keeps_pkg_name_evr path : keeps R (DistGitImporter.pkg_name_evr path).
Proof. unfold DistGitImporter.pkg_name_evr. frame. Qed.

Lemma keeps_before_git_import task : keeps R (DistGitImporter.before_git_import task).
Proof. unfold DistGitImporter.before_git_import. frame. Qed.

Lemma keeps_after_git_import self : keeps R (DistGitImporter.after_git_import self).
Proof. unfold DistGitImporter.after_git_import. frame. Qed.

Lemma keeps_git_import_srpm self task path :
  keeps R (DistGitImporter.git_import_srpm self task path).
Proof.
  unfold DistGitImporter.git_import_srpm.
  apply keeps_bind; [apply keeps_mkdtemp|intros tmp].
  apply keeps_try_finally; [|apply keeps_shutil_rmtree].
  intros w. destruct (do_git_srpm_import _ _ _ _ w) as [r f]; simpl.
  eapply R_trans; [by apply (R_emit (EvGitImport path))|apply R_fs].
Qed.

Lemma keeps_stages self task path :
  keeps R (DistGitImporter.stages self task path).
Proof.
  unfold DistGitImporter.stages.
  apply keeps_bind; [apply keeps_lift|intros p].
  apply keeps_bind; [apply keeps_get_srpm|intros _].
  apply keeps_bind; [apply keeps_pkg_name_evr|intros nv].
  apply keeps_bind; [apply keeps_before_git_import|intros _].
  apply keeps_bind; [apply keeps_git_import_srpm|intros h].
  apply keeps_bind; [apply keeps_after_git_import|intros _].
  apply keeps_ret.
Qed.

(** From here on every event is let through. *)
Hypothesis R_emit_all : ∀ e w, R w (emit e w).

Lemma keeps_post_back_safe self data :
  keeps R (DistGitImporter.post_back_safe self data).
Proof.
  intros w. unfold DistGitImporter.post_back_safe, DistGitImporter.post_back,
    try_except, requests_post.
  destruct (http_post _ _ w); simpl; apply R_emit_all.
Qed.

Lemma keeps_pipeline self task path :
  keeps R (DistGitImporter.pipeline self task path).
Proof.
  unfold DistGitImporter.pipeline.
  apply keeps_bind; [apply keeps_stages|intros t].
  intros w. unfold DistGitImporter.post_back, requests_post.
  destruct (http_post _ _ w); simpl; apply R_emit_all.
Qed.

Lemma keeps_do_import self task : keeps R (DistGitImporter.do_import self task).
Proof.
  unfold DistGitImporter.do_import.
  apply keeps_bind; [apply keeps_str_format|intros _].
  apply keeps_bind; [apply keeps_mkdtemp|intros tmp_root].
  apply keeps_try_finally; [|apply keeps_shutil_rmtree_ignore_errors].
  apply keeps_try_except; [apply keeps_pipeline|].
  intros e k [= <-]. unfold DistGitImporter.on_failure.
  apply keeps_bind; [apply keeps_str_format|intros _].
  apply keeps_post_back_safe.
Qed.

Lemma keeps_try_to_obtain_new_task self :
  keeps R (DistGitImporter.try_to_obtain_new_task self).
Proof.
  unfold DistGitImporter.try_to_obtain_new_task.
  apply keeps_try_except; [|by intros e k [= <-]; apply keeps_ret].
  frame.
Qed.

Lemma keeps_turn self : keeps R (DistGitImporter.turn self).
Proof.
  unfold DistGitImporter.turn.
  apply keeps_bind; [apply keeps_try_to_obtain_new_task|intros [task|]].
  - apply keeps_do_import.
  - intros w. apply R_emit_all.
Qed.

Lemma keeps_helpers_run_cmd cmd : keeps R (CustomProvider.helpers_run_cmd cmd).
Proof.
  intros w. unfold CustomProvider.helpers_run_cmd.
  destruct (run_cmd cmd w) as [[|] f]; simpl;
    (eapply R_trans; [apply R_emit_all|apply R_fs]).
Qed.

Lemma keeps_helpers_build_srpm a b : keeps R (CustomProvider.helpers_build_srpm a b).
Proof.
  intros w. unfold CustomProvider.helpers_build_srpm.
  destruct (build_srpm a b w) as [[|] f]; simpl;
    (eapply R_trans; [apply R_emit_all|apply R_fs]).
Qed.

Lemma keeps_sandbox self cfg cmd : keeps R (CustomProvider.sandbox self cfg cmd).
Proof.
  unfold CustomProvider.sandbox, CustomProvider.join_resultdir.
  repeat first [ apply keeps_helpers_run_cmd | apply keeps_helpers_build_srpm
               | frame_step ].
Qed.

End frame.


(** ** Provider selection *)



(** ** Package inspector *)

Lemma split_on_no_sep (s : string) :
  no_space s → PyStr.split_on " " s = [s].
Proof.
  unfold no_space, PyStr.has_char.
  induction s as [|c s IH]; [done|]. simpl.
  destruct (Ascii.eqb c " ") eqn:Hc; simpl; [discriminate|].
  intros Hs. by rewrite IH.
Qed.

Lemma split_on_field (s rest : string) :
  no_space s →
  PyStr.split_on " " (s +:+ " " +:+ rest) = s :: PyStr.split_on " " rest.
Proof.
  unfold no_space, PyStr.has_char.
  induction s as [|c s IH]; [done|].
  rewrite append_cons. simpl.
  destruct (Ascii.eqb c " ") eqn:Hc; simpl; [discriminate|].
  intros Hs. by rewrite IH.
Qed.

(** C3, as the code has it.  [pkg_name_evr] raises [PackageQueryException]
    when the query tool cannot be launched, when it writes anything on
    stderr, and when cutting its output at every single space does not give
    exactly four fields.  When the output is NAME EPOCH VERSION RELEASE, the
    four fields separated by one space each and free of spaces, it returns
    the name with [epoch:version-release] if the epoch field is a non-empty
    string of digits and with [version-release] otherwise. *)
Theorem pkg_name_evr_fields `{Env} (srpm_path : string) (w : world)
    (r : proc_result) (f : filesystem) :
  popen (rpm_query srpm_path) None w = (r, f) →
  let result := (DistGitImporter.pkg_name_evr srpm_path w).1 in
  match r with
  | LaunchFailed => result = inl PackageQueryException
  | Completed output error _ =>
      (error ≠ "" → result = inl PackageQueryException) ∧
      (List.length (PyStr.split_on " " output) ≠ 4%nat →
         result = inl PackageQueryException) ∧
      (error = "" →
       ∀ name epoch version release,
         no_space name → no_space epoch → no_space version → no_space release →
         output = name +:+ " " +:+ epoch +:+ " " +:+ version +:+ " " +:+ release →
         result = inr (name,
                       if PyStr.isdigit epoch
                       then epoch +:+ ":" +:+ version +:+ "-" +:+ release
                       else version +:+ "-" +:+ release))
  end.
Proof.
  intros Hp. unfold DistGitImporter.pkg_name_evr, bind, try_except, Popen.
  fold (rpm_query srpm_path). rewrite Hp.
  destruct r as [|output error rc]; simpl; [done|].
  repeat split.
  - intros Herr. destruct (String.eqb_spec error ""); [done|done].
  - intros Hlen. destruct (String.eqb error ""); simpl; [|done].
    destruct (PyStr.split_on " " output) as [|a [|b [|c [|d [|e l]]]]]; done.
  - intros -> name epoch version release Hn He Hv Hr ->. simpl.
    rewrite !split_on_field, (split_on_no_sep release) by done.
    by destruct (PyStr.isdigit epoch).
Qed.

Lemma pkg_name_evr_fields_witness :
  let E := Sample.env_of (Sample.prints "pkg 0 1.2 3.fc40" "" 0)
             (Sample.serves 200 []) Sample.accepts Sample.writable in
  let E' := Sample.env_of (Sample.prints "pkg (none) 1.2 3.fc40" "" 0)
             (Sample.serves 200 []) Sample.accepts Sample.writable in
  (DistGitImporter.pkg_name_evr (H := E) "/t/package.src.rpm" Sample.w0).1
    = inr ("pkg", "0:1.2-3.fc40")
  ∧ (DistGitImporter.pkg_name_evr (H := E') "/t/package.src.rpm" Sample.w0).1
    = inr ("pkg", "1.2-3.fc40").
Proof.
  intros E E'. split.
  - pose proof (pkg_name_evr_fields (H := E) "/t/package.src.rpm" Sample.w0
                  (Completed "pkg 0 1.2 3.fc40" "" 0) Sample.empty_fs eq_refl)
      as (_ & _ & Hok).
    apply (Hok eq_refl "pkg" "0" "1.2" "3.fc40"); reflexivity.
  - pose proof (pkg_name_evr_fields (H := E') "/t/package.src.rpm" Sample.w0
                  (Completed "pkg (none) 1.2 3.fc40" "" 0) Sample.empty_fs eq_refl)
      as (_ & _ & Hok).
    apply (Hok eq_refl "pkg" "(none)" "1.2" "3.fc40"); reflexivity.
Defined.

(** C3, as stated, fails: an output of three whitespace-delimited tokens
    followed by a space is cut into four fields, the last one empty, and is
    accepted. *)
Lemma pkg_name_evr_accepts_three_tokens :
  let E := Sample.env_of (Sample.prints "pkg 0 1.2 " "" 0)
             (Sample.serves 200 []) Sample.accepts Sample.writable in
  PyStr.split "pkg 0 1.2 " = ["pkg"; "0"; "1.2"]
  ∧ (DistGitImporter.pkg_name_evr (H := E) "/t/package.src.rpm" Sample.w0).1
    = inr ("pkg", "0:1.2-").
Proof. split; reflexivity. Qed.

(** ** Extraction step of the git providers *)

(** [copy], one case per shape of the list of matching entries. *)
Lemma copy_unfold `{Env} (self : GitProviderObj) (w : world) :
  gp_tmp_dest self ∈ fs_dirs (w_fs w) →
  GitProvider.copy self w =
  match List.filter GitProvider.is_srpm (entries (gp_tmp_dest self) (w_fs w)) with
  | [name] =>
      shutil_copyfile (gp_tmp_dest self +:+ "/" +:+ name) (gp_target_path self) w
  | _ => (inl (GitProvider.fail "tito_srpm_build_error"), w)
  end.
Proof.
  intros Hdir. unfold GitProvider.copy, bind, os_listdir.
  rewrite decide_True by done.
  by destruct (List.filter _ _) as [|name [|other rest]].
Qed.

(** C2, as the code has it.  With the build-output directory in place and
    the target writable, [copy] looks at the names of all entries of the
    directory, files and sub-directories alike.  It succeeds exactly when
    one entry ends in [.src.rpm] and that entry is a regular file; it then
    leaves the content of that file at [target_path].  With no such entry,
    or several, it raises the tito SRPM-build error and changes nothing, so
    none of the candidates is picked; a single such entry that is a
    directory makes the copy raise [IOError].  Entries with other names
    play no part. *)
Theorem copy_exactly_one_srpm `{Env} (self : GitProviderObj) (w : world) :
  gp_tmp_dest self ∈ fs_dirs (w_fs w) →
  write_ok (gp_target_path self) w = true →
  let found := List.filter GitProvider.is_srpm (entries (gp_tmp_dest self) (w_fs w)) in
  let path name := gp_tmp_dest self +:+ "/" +:+ name in
  let out := GitProvider.copy self w in
  (out.1 = inr tt ↔
     ∃ name, found = [name] ∧ is_Some (fs_files (w_fs w) !! path name)) ∧
  (∀ name content,
     found = [name] → fs_files (w_fs w) !! path name = Some content →
     fs_files (w_fs out.2) !! gp_target_path self = Some content) ∧
  (∀ name,
     found = [name] → fs_files (w_fs w) !! path name = None →
     out = (inl (Builtin IOError), w)) ∧
  (List.length found ≠ 1%nat →
     out = (inl (GitProvider.fail "tito_srpm_build_error"), w)).
Proof.
  intros Hdir Hw. cbv zeta. rewrite copy_unfold by done.
  destruct (List.filter _ _) as [|name [|other rest]] eqn:Hfound; simpl.
  - repeat split; try done. by intros (? & ? & _).
  - unfold shutil_copyfile, write_file.
    destruct (fs_files (w_fs w) !! (gp_tmp_dest self +:+ "/" +:+ name))
      as [content|] eqn:Hc.
    + rewrite Hw. simpl. repeat split; try done.
      * intros _. exists name. by rewrite Hc.
      * intros ? c [= <-] Hc'. rewrite Hc in Hc'. injection Hc' as <-.
        apply lookup_insert_eq.
      * intros ? [= <-] Hc'. congruence.
    + simpl. repeat split; try done.
      * intros (n & [= <-] & Hs). rewrite Hc in Hs. by destruct Hs.
      * intros ? c [= <-] Hc'. congruence.
  - repeat split; try done. by intros (? & ? & _).
Qed.

Lemma copy_exactly_one_srpm_witness :
  let E := Sample.env_of (Sample.prints "" "" 0) (Sample.serves 200 [])
             Sample.accepts Sample.writable in
  let w := {| w_fs := {| fs_dirs := {[ "/out"; "/out/rpmbuild-y" ]};
                         fs_files := {[ "/out/y-1-1.src.rpm" := "srpm bytes";
                                        "/out/y-1.tar.gz" := "tarball" ]} |};
              w_trace := []; w_running := false |} in
  let self := {| gp_task := Sample.tito_task;
                 gp_target_path := "/t/package.src.rpm";
                 gp_tmp := "/scratch"; gp_tmp_dest := "/out";
                 gp_git_subdir := None |} in
  fs_files (w_fs (GitProvider.copy (H := E) self w).2) !! "/t/package.src.rpm"
    = Some "srpm bytes".
Proof.
  intros E w self.
  destruct (copy_exactly_one_srpm (H := E) self w) as (_ & Hone & _).
  - simpl. set_solver.
  - reflexivity.
  - apply (Hone "y-1-1.src.rpm" "srpm bytes"); vm_compute; reflexivity.
Defined.

(** C2, as stated, fails: the build-output directory holds one file named
    [*.src.rpm] and, beside it, a directory of such a name; [copy] counts
    two candidates and raises, although exactly one file matches.  A
    directory of such a name alone makes the copy itself fail. *)
Lemma copy_counts_directories :
  let E := Sample.env_of (Sample.prints "" "" 0) (Sample.serves 200 [])
             Sample.accepts Sample.writable in
  let self := {| gp_task := Sample.tito_task;
                 gp_target_path := "/t/package.src.rpm";
                 gp_tmp := "/scratch"; gp_tmp_dest := "/out";
                 gp_git_subdir := None |} in
  let files : gmap string string := {[ "/out/y-1-1.src.rpm" := "srpm bytes" ]} in
  let w := {| w_fs := {| fs_dirs := {[ "/out"; "/out/d.src.rpm" ]};
                         fs_files := files |};
              w_trace := []; w_running := false |} in
  let w' := {| w_fs := {| fs_dirs := {[ "/out"; "/out/d.src.rpm" ]};
                          fs_files := ∅ |};
               w_trace := []; w_running := false |} in
  List.filter GitProvider.is_srpm
    (omap (child_name "/out") (elements (dom files))) = ["y-1-1.src.rpm"]
  ∧ GitProvider.copy (H := E) self w
    = (inl (GitAndTitoException (PStr "tito_srpm_build_error")), w)
  ∧ GitProvider.copy (H := E) self w' = (inl (Builtin IOError), w').
Proof. repeat split; vm_compute; reflexivity. Qed.

(** ** URL download *)


(** ** Build stage of the tito provider *)

(** C5, as the code has it.  [GitAndTitoProvider.build] launches
    [tito build -o <tmp_dest> --srpm], with [--test] appended exactly when
    [task.tito_test] is true, in the effective source subdirectory.  It
    raises the tito SRPM-build error when the tool cannot be launched and
    when the tool writes anything on stderr; otherwise it returns, whatever
    the exit status. *)
Theorem tito_build_outcome `{Env} (self : GitProviderObj) (w : world)
    (r : proc_result) (f : filesystem) :
  let base := ["tito"; "build"; "-o"; gp_tmp_dest self; "--srpm"] in
  let cmd := if truthy (tito_test (gp_task self))
             then base ++ ["--test"] else base in
  popen (Argv cmd) (gp_git_subdir self) w = (r, f) →
  let out := GitAndTito.build self w in
  w_trace out.2 = w_trace w ++ [EvPopen (Argv cmd) (gp_git_subdir self)] ∧
  match r with
  | LaunchFailed => out.1 = inl (GitProvider.fail "tito_srpm_build_error")
  | Completed _ error _ =>
      (error ≠ "" → out.1 = inl (GitProvider.fail "tito_srpm_build_error")) ∧
      (error = "" → out.1 = inr tt)
  end.
Proof.
  intros base cmd Hp out. subst out.
  assert (Hcmd : GitAndTito.build_cmd self = cmd).
  { unfold GitAndTito.build_cmd, cmd, base.
    destruct (truthy _); [done|apply app_nil_r]. }
  unfold GitAndTito.build, bind, try_except, Popen. rewrite Hcmd, Hp.
  destruct r as [|output error rc]; simpl; [done|].
  destruct (String.eqb_spec error ""); simpl; by repeat split.
Qed.

Lemma tito_build_outcome_witness :
  let E := Sample.env_of (Sample.prints "" "error: no tito.props" 1)
             (Sample.serves 200 []) Sample.accepts Sample.writable in
  let self := {| gp_task := Sample.tito_task;
                 gp_target_path := "/t/package.src.rpm";
                 gp_tmp := "/scratch"; gp_tmp_dest := "/out";
                 gp_git_subdir := Some "/scratch/repo/" |} in
  w_trace (GitAndTito.build (H := E) self Sample.w0).2
    = [EvPopen (Argv ["tito"; "build"; "-o"; "/out"; "--srpm"; "--test"])
               (Some "/scratch/repo/")]
  ∧ (GitAndTito.build (H := E) self Sample.w0).1
    = inl (GitAndTitoException (PStr "tito_srpm_build_error")).
Proof.
  intros E self.
  pose proof (tito_build_outcome (H := E) self Sample.w0
                (Completed "" "error: no tito.props" 1) Sample.empty_fs eq_refl)
    as [Htrace [Herr _]].
  split; [exact Htrace|]. apply Herr. discriminate.
Defined.

(** C5, as stated, fails: a tito run that exits with status 1 and writes
    nothing on stderr is taken for a success. *)
Lemma tito_build_ignores_exit_status :
  let E := Sample.env_of (Sample.prints "" "" 1)
             (Sample.serves 200 []) Sample.accepts Sample.writable in
  let self := {| gp_task := Sample.tito_task;
                 gp_target_path := "/t/package.src.rpm";
                 gp_tmp := "/scratch"; gp_tmp_dest := "/out";
                 gp_git_subdir := Some "/scratch/repo/" |} in
  @popen E (Argv (GitAndTito.build_cmd self)) (gp_git_subdir self) Sample.w0
    = (Completed "" "" 1, Sample.empty_fs)
  ∧ (GitAndTito.build (H := E) self Sample.w0).1 = inr tt.
Proof. split; reflexivity. Qed.

(** ** Frame conditions for the whole importer *)

Lemma posts_emit (e : event) (w : world) :
  posts (emit e w) = posts w ++ (if is_post e then [e] else []).
Proof.
  unfold posts. simpl. rewrite List.filter_app. simpl. by destruct (is_post e).
Qed.

Lemma same_posts_emit (e : event) (w : world) :
  stage_event e = true → same_posts w (emit e w).
Proof.
  intros He. unfold same_posts. rewrite posts_emit.
  destruct e; simpl in *; try discriminate; apply app_nil_r.
Qed.

Lemma extends_trans (a b c : world) : extends a b → extends b c → extends a c.
Proof.
  intros [e1 H1] [e2 H2]. exists (e1 ++ e2). by rewrite H2, H1, app_assoc.
Qed.

Lemma extends_refl (w : world) : extends w w.
Proof. exists []. by rewrite app_nil_r. Qed.

(** The stages of [do_import] post nothing. *)
Lemma stages_same_posts `{Env} self task path w :
  same_posts w (DistGitImporter.stages self task path w).2.
Proof.
  apply (keeps_stages same_posts); unfold same_posts.
  - done.
  - intros a b c H1 H2. by rewrite H2, H1.
  - done.
  - apply same_posts_emit.
Qed.


(** ** The orchestrator *)

Lemma rmtree_ignore_errors_ok `{Env} (d : string) (w : world) :
  ∃ w', shutil_rmtree_ignore_errors d w = (inr tt, w')
        ∧ w_trace w' = w_trace w.
Proof.
  unfold shutil_rmtree_ignore_errors, try_except, shutil_rmtree, ret.
  case_decide; eauto.
Qed.

Lemma post_back_safe_ok `{Env} self (data : pyval) (w : world) :
  DistGitImporter.post_back_safe self data w
  = (inr tt, emit (EvPost (imp_upload_url self) data) w).
Proof.
  unfold DistGitImporter.post_back_safe, DistGitImporter.post_back,
    try_except, requests_post.
  by destruct (http_post _ _ w).
Qed.

(** [do_import] stops at its first line when the log message cannot be
    formatted, and at its second when no directory can be made; nothing has
    happened then. *)
Lemma do_import_before_try `{Env} self task (w : world) :
  (forallb encodable [task_id task; package_url task] = false →
   DistGitImporter.do_import self task w = (inl (Builtin UnicodeEncodeError), w)) ∧
  (forallb encodable [task_id task; package_url task] = true →
   tmp_ok w = false →
   DistGitImporter.do_import self task w = (inl (Builtin OSError), w)).
Proof.
  unfold DistGitImporter.do_import, bind, str_format, mkdtemp, ret, raise.
  split.
  - by intros ->.
  - by intros -> ->.
Qed.

(** [do_import], once in its [try], in terms of what the [try] block did:
    [r] is what [do_import] returns or raises. *)
Lemma do_import_unfold `{Env} self task (w : world) :
  let path := os_path_join (tmp_path (fresh (used_suffixes (w_fs w))))
                           "package.src.rpm" in
  forallb encodable [task_id task; package_url task] = true →
  tmp_ok w = true →
  ∃ r w', DistGitImporter.do_import self task w = (r, w') ∧
    match DistGitImporter.pipeline self task path (mkdtemp w).2 with
    | (inl e, w2) =>
        if forallb encodable (DistGitImporter.logged task e) then
          r = inr tt ∧
          w_trace w' = w_trace w2 ++
            [EvPost (imp_upload_url self)
                    (DistGitImporter.failure_dict task (DistGitImporter.error_kind e))]
        else r = inl (Builtin UnicodeEncodeError) ∧ w_trace w' = w_trace w2
    | (inr _, w2) => r = inr tt ∧ w_trace w' = w_trace w2
    end.
Proof.
  intros path Hfmt Htmp.
  unfold DistGitImporter.do_import, bind at 1. unfold str_format at 1.
  rewrite Hfmt. unfold ret at 1. unfold bind at 1.
  assert (Hm : mkdtemp w = (inr (tmp_path (fresh (used_suffixes (w_fs w)))),
                            (mkdtemp w).2)).
  { unfold mkdtemp. by rewrite Htmp. }
  set (w1 := (mkdtemp w).2) in *. clearbody w1. rewrite Hm. fold path.
  unfold try_finally, try_except.
  destruct (DistGitImporter.pipeline self task path _) as [[e|[]] w2].
  - unfold DistGitImporter.on_failure, bind, str_format.
    destruct (forallb encodable (DistGitImporter.logged task e)).
    + unfold ret at 1. rewrite post_back_safe_ok.
      destruct (rmtree_ignore_errors_ok
                  (tmp_path (fresh (used_suffixes (w_fs w))))
                  (emit (EvPost (imp_upload_url self)
                     (DistGitImporter.failure_dict task
                        (DistGitImporter.error_kind e))) w2))
        as (w' & -> & Ht).
      eauto.
    + unfold raise at 1.
      destruct (rmtree_ignore_errors_ok
                  (tmp_path (fresh (used_suffixes (w_fs w)))) w2)
        as (w' & -> & Ht).
      eauto.
  - destruct (rmtree_ignore_errors_ok
                (tmp_path (fresh (used_suffixes (w_fs w)))) w2)
      as (w' & -> & Ht).
    eauto.
Qed.

(** C6, as the code has it.  Take a task whose identifier and URLs can be
    formatted into the log messages, at a moment when the temporary
    directory can be made.  Then [do_import] returns.  When a stage fails it
    posts one payload, the failure record of that stage's error; when all
    stages succeed and the success post goes through it posts one payload,
    the success record; when all stages succeed and the success post itself
    raises, it posts the success record and then a failure record with the
    error [unknown_error]. *)
Theorem do_import_payloads `{Env} self (task : ImportTask) (w : world) :
  encodable (task_id task) = true →
  encodable (package_url task) = true →
  encodable (git_url task) = true →
  tmp_ok w = true →
  let path := os_path_join (tmp_path (fresh (used_suffixes (w_fs w))))
                           "package.src.rpm" in
  let url := imp_upload_url self in
  let out := DistGitImporter.do_import self task w in
  out.1 = inr tt ∧
  match DistGitImporter.stages self task path (mkdtemp w).2 with
  | (inl e, _) =>
      posts out.2 = posts w ++
        [EvPost url (DistGitImporter.failure_dict task (DistGitImporter.error_kind e))]
  | (inr t, w2) =>
      let success := EvPost url (Task.get_dict_for_frontend t) in
      if http_post url (Task.get_dict_for_frontend t) w2
      then posts out.2 = posts w ++ [success]
      else posts out.2 = posts w ++
             [success; EvPost url (DistGitImporter.failure_dict task "unknown_error")]
  end.
Proof.
  intros Hid Hurl Hgit Htmp path url out. subst out.
  assert (Hfmt : forallb encodable [task_id task; package_url task] = true).
  { simpl. by rewrite Hid, Hurl. }
  assert (Hlog : ∀ e, forallb encodable (DistGitImporter.logged task e) = true).
  { intros [| | |?|?]; simpl; by rewrite ?Hurl, ?Hgit. }
  destruct (do_import_unfold self task w Hfmt Htmp) as (r & w' & -> & Hw').
  fold path in Hw'. cbn [fst snd].
  pose proof (stages_same_posts self task path (mkdtemp w).2) as Hs.
  assert (Hm : posts (mkdtemp w).2 = posts w).
  { unfold mkdtemp. by rewrite Htmp. }
  unfold same_posts in Hs. rewrite Hm in Hs. clear Hm.
  unfold DistGitImporter.pipeline, bind in Hw'.
  destruct (DistGitImporter.stages self task path (mkdtemp w).2) as [[e|t] w2];
    cbn [snd] in Hs.
  - rewrite Hlog in Hw'. destruct Hw' as [-> Hw']. split; [done|].
    unfold posts in *. by rewrite Hw', List.filter_app, Hs.
  - unfold DistGitImporter.post_back, requests_post in Hw'. fold url in Hw'.
    destruct (http_post url (Task.get_dict_for_frontend t) w2).
    + destruct Hw' as [-> Hw']. split; [done|].
      unfold posts in *. rewrite Hw'. cbn [w_trace emit].
      by rewrite List.filter_app, Hs.
    + rewrite Hlog in Hw'. destruct Hw' as [-> Hw']. split; [done|].
      unfold posts in *. rewrite Hw'. cbn [w_trace emit].
      rewrite !List.filter_app, Hs. simpl. by rewrite <- app_assoc.
Qed.

Lemma do_import_payloads_witness :
  let E := Sample.env_of (Sample.prints "" "" 0) (Sample.serves 404 [])
             Sample.accepts Sample.writable in
  posts (DistGitImporter.do_import (H := E) Sample.importer Sample.link_task
           Sample.w0).2
  = posts Sample.w0
    ++ [EvPost "http://frontend/backend/import-completed/"
          (DistGitImporter.failure_dict Sample.link_task "srpm_download_failed")].
Proof.
  intros E.
  exact (proj2 (do_import_payloads (H := E) Sample.importer Sample.link_task
                  Sample.w0 eq_refl eq_refl eq_refl eq_refl)).
Defined.

(** C6, as stated, fails: every stage succeeds, the success post is lost on
    the network, and a failure record is posted after the success record. *)
Lemma do_import_posts_success_then_failure :
  let E := Sample.env_of (Sample.prints "y (none) 1 1" "" 0)
             (Sample.serves 200 ["srpm bytes"])
             Sample.drops_success Sample.writable in
  let url := "http://frontend/backend/import-completed/" in
  (∃ t w2, DistGitImporter.stages (H := E) Sample.importer Sample.link_task
             "/tmp/tmp0/package.src.rpm" (mkdtemp Sample.w0).2 = (inr t, w2))
  ∧ posts (DistGitImporter.do_import (H := E) Sample.importer Sample.link_task
             Sample.w0).2
    = [ EvPost url (PDict [("task_id", PInt 7); ("pkg_name", PStr "y");
                           ("pkg_version", PStr "1-1");
                           ("repo_name", PStr "alice/tools/y");
                           ("git_hash", PStr "6d1f3a")]);
        EvPost url (PDict [("task_id", PInt 7);
                           ("error", PStr "unknown_error")]) ].
Proof.
  split.
  - eexists _, _. vm_compute. reflexivity.
  - vm_compute. reflexivity.
Qed.

Lemma try_to_obtain_new_task_returns `{Env} self (w : world) :
  ∃ mb_task, (DistGitImporter.try_to_obtain_new_task self w).1 = inr mb_task.
Proof.
  unfold DistGitImporter.try_to_obtain_new_task, try_except.
  destruct (bind _ _ w) as [[e|a] w1]; simpl; eauto.
Qed.

(** Nothing in a turn of the loop touches the running flag. *)
Lemma turn_same_flag `{Env} self (w : world) :
  w_running (DistGitImporter.turn self w).2 = w_running w.
Proof.
  apply (keeps_turn same_flag); unfold same_flag; try done.
  intros a b c H1 H2. by rewrite H2, H1.
Qed.

(** After a turn that returns, the loop goes on to test its condition
    again; a turn that raises ends the loop with its exception. *)
Lemma loop_step `{Env} self (n : nat) (w : world) :
  w_running w = true →
  DistGitImporter.loop self (S n) w
  = match DistGitImporter.turn self w with
    | (inl e, w1) => (inl e, w1)
    | (inr _, w1) =>
        DistGitImporter.loop self n (DistGitImporter.interference w1).2
    end.
Proof.
  intros Hrun. simpl. rewrite Hrun. unfold bind.
  destruct (DistGitImporter.turn self w) as [[e|[]] w1]; [done|].
  unfold DistGitImporter.interference. by destruct (stop_request w1).
Qed.

(** C8 fails on the code: two statements of [do_import] stand before its
    [try].  The queue owner hands out a job whose download URL has a
    character outside ASCII.  The job decodes; [do_import] raises
    [UnicodeEncodeError] at its first statement, the log line formatted
    from the task; nothing is posted, and [run] ends with that exception in
    its first turn although nobody asked it to stop.  Likewise, on a host
    where no temporary directory can be made, a job that decodes makes
    [do_import] raise [OSError] at its second statement, and [run] ends with
    it, nothing posted. *)
Theorem run_ends_on_task_fault :
  let E := Sample.unicode_queue in
  let E' := Sample.no_tmp_queue in
  let polled := emit (EvGet (PStr "http://frontend/backend/importing/"))
                  (set_running true Sample.w0) in
  (∃ task,
     DistGitImporter.try_to_obtain_new_task (H := E) Sample.importer
       (set_running true Sample.w0) = (inr (Some task), polled)
     ∧ package_url task = PStr Sample.unicode_url
     ∧ DistGitImporter.do_import (H := E) Sample.importer task polled
       = (inl (Builtin UnicodeEncodeError), polled))
  ∧ (∃ task,
     DistGitImporter.try_to_obtain_new_task (H := E') Sample.importer
       (set_running true Sample.w0) = (inr (Some task), polled)
     ∧ DistGitImporter.do_import (H := E') Sample.importer task polled
       = (inl (Builtin OSError), polled))
  ∧ (∀ w, @stop_request E w = false)
  ∧ (∀ w, @stop_request E' w = false)
  ∧ posts polled = [] ∧ w_running polled = true
  ∧ ∀ turns,
      DistGitImporter.run (H := E) Sample.importer (S turns) Sample.w0
      = (inl (Builtin UnicodeEncodeError), polled)
      ∧ DistGitImporter.run (H := E') Sample.importer (S turns) Sample.w0
        = (inl (Builtin OSError), polled).
Proof.
  intros E E' polled.
  split; [eexists; split; [vm_compute; reflexivity|];
          split; vm_compute; reflexivity|].
  split; [eexists; split; vm_compute; reflexivity|].
  do 4 (split; [done|]).
  intros turns. split.
  - change (DistGitImporter.run (H := E) Sample.importer (S turns) Sample.w0)
      with (DistGitImporter.loop (H := E) Sample.importer (S turns)
              (set_running true Sample.w0)).
    rewrite loop_step by done.
    assert (Hturn : DistGitImporter.turn (H := E) Sample.importer
                      (set_running true Sample.w0)
                    = (inl (Builtin UnicodeEncodeError), polled)).
    { vm_compute. reflexivity. }
    by rewrite Hturn.
  - change (DistGitImporter.run (H := E') Sample.importer (S turns) Sample.w0)
      with (DistGitImporter.loop (H := E') Sample.importer (S turns)
              (set_running true Sample.w0)).
    rewrite loop_step by done.
    assert (Hturn : DistGitImporter.turn (H := E') Sample.importer
                      (set_running true Sample.w0)
                    = (inl (Builtin OSError), polled)).
    { vm_compute. reflexivity. }
    by rewrite Hturn.
Qed.

(** ** Undecodable jobs *)

Lemma first_item_len (v x : pyval) :
  first_item v = inr x → ∃ n, py_len v = inr (S n).
Proof.
  destruct v as [| | |s|l|d]; simpl; try discriminate.
  - destruct s; [discriminate|eauto].
  - destruct l; [discriminate|eauto].
Qed.

(** C10. When the queue owner hands out a job that [ImportTask.from_dict]
    cannot decode, for whatever reason, [try_to_obtain_new_task] returns
    [None] after its one [get], just as it does for an empty queue; the loop
    then sleeps and nothing is posted. *)
Theorem undecodable_job_is_skipped `{Env} self (w : world)
    (status : Z) (chunks : list string) (ok : bool) (body builds job : pyval)
    (e : exn) :
  http_get (imp_get_url self) w = Response status chunks ok (Some body) →
  getitem body "builds" = inr builds →
  first_item builds = inr job →
  Task.from_dict job (imp_opts self) = inl e →
  let polled := emit (EvGet (PStr (imp_get_url self))) w in
  DistGitImporter.try_to_obtain_new_task self w = (inr None, polled) ∧
  (∀ (H' : Env) status' chunks' ok' body',
     @http_get H' (imp_get_url self) w = Response status' chunks' ok' (Some body') →
     getitem body' "builds" = inr (PList []) →
     @DistGitImporter.try_to_obtain_new_task H' self w = (inr None, polled)) ∧
  DistGitImporter.turn self w = (inr tt, emit EvSleep polled) ∧
  posts (DistGitImporter.turn self w).2 = posts w.
Proof.
  intros Hget Hbuilds Hjob Hdec polled.
  destruct (first_item_len _ _ Hjob) as [n Hlen].
  assert (Hnone : DistGitImporter.try_to_obtain_new_task self w = (inr None, polled)).
  { unfold DistGitImporter.try_to_obtain_new_task, try_except, bind, requests_get, lift.
    rewrite Hget. simpl. rewrite Hbuilds, Hlen. simpl. by rewrite Hjob, Hdec. }
  repeat split.
  - exact Hnone.
  - intros H' status' chunks' ok' body' Hget' Hb'.
    unfold DistGitImporter.try_to_obtain_new_task, try_except, bind, requests_get, lift.
    rewrite Hget'. simpl. by rewrite Hb'.
  - unfold DistGitImporter.turn, bind. by rewrite Hnone.
  - unfold DistGitImporter.turn, bind. rewrite Hnone. simpl.
    unfold polled. by rewrite !posts_emit, !app_nil_r.
Qed.

(** A job that lacks its fields, a job whose payload does not parse and a
    job of an unknown source type: each one is skipped the same way. *)
Lemma undecodable_job_is_skipped_witness :
  let E j := Sample.env_of (Sample.prints "" "" 0) (Sample.offers j)
               Sample.accepts Sample.writable in
  let skipped := (inr tt,
                  emit EvSleep
                    (emit (EvGet (PStr "http://frontend/backend/importing/"))
                       Sample.w0)) in
  (Task.from_dict (H := E (PDict [])) (PDict []) Sample.opts
     = inl (Builtin KeyError)
   ∧ DistGitImporter.turn (H := E (PDict [])) Sample.importer Sample.w0 = skipped)
  ∧ (Task.from_dict (H := E (Sample.job 1 "not json"))
       (Sample.job 1 "not json") Sample.opts = inl (Builtin ValueError)
     ∧ DistGitImporter.turn (H := E (Sample.job 1 "not json"))
         Sample.importer Sample.w0 = skipped)
  ∧ (Task.from_dict (H := E (Sample.job 9 "{}"))
       (Sample.job 9 "{}") Sample.opts = inl PackageImportException
     ∧ DistGitImporter.turn (H := E (Sample.job 9 "{}"))
         Sample.importer Sample.w0 = skipped).
Proof.
  intros E skipped.
  assert (Hall : ∀ j e,
            Task.from_dict (H := E j) j Sample.opts = inl e →
            DistGitImporter.turn (H := E j) Sample.importer Sample.w0 = skipped).
  { intros j e Hdec.
    destruct (undecodable_job_is_skipped (H := E j) Sample.importer Sample.w0
                200 [] true (PDict [("builds", PList [j])]) (PList [j]) j e)
      as (_ & _ & Hturn & _); try reflexivity; [exact Hdec|exact Hturn]. }
  repeat split; try reflexivity; eapply Hall; reflexivity.
Defined.

(** ** Custom-script provider: the webhook payload *)

(** C9, as the code has it.  With a webhook payload URL and a writable
    build directory, [produce_srpm] writes the sandbox configuration, gets
    the payload once and, when the response is not a 4xx or 5xx one, the
    stream does not break and the file can be written, has the whole payload
    in [hook_payload] before it runs anything: all of [run_cmd] happens in
    [sandbox], started afterwards with the path of the file.  Otherwise
    [produce_srpm] has run no command and raises: [RequestException] when
    there is no response, [HTTPError] when the status is 4xx or 5xx,
    [IOError] when the file cannot be opened, and [RequestException] when
    the stream breaks. *)
Theorem hook_payload_before_sandbox `{Env} (self : CustomProviderObj)
    (w : world) (u : string) :
  cp_hook_payload_url self = PStr u →
  u ≠ "" →
  let cfg := os_path_join (cp_outdir self) "mock-config.cfg" in
  let hook_file := os_path_join (cp_outdir self) "hook_payload" in
  write_ok cfg w = true →
  let out := CustomProvider.produce_srpm self w in
  let w1 := emit (EvWritten cfg)
              (set_fs (put_file cfg (CustomProvider.mock_config (cp_chroot self))
                                (w_fs w)) w) in
  let w2 := emit (EvGet (PStr u)) w1 in
  let aborted e := out.1 = inl (Builtin e) ∧
                   w_trace out.2 = w_trace w ++ [EvWritten cfg; EvGet (PStr u)] in
  match http_get u w1 with
  | GetFailed => aborted RequestException
  | Response status chunks stream_ok _ =>
      if (400 <=? status) && (status <? 600) then aborted HTTPError
      else if write_ok hook_file w2 then
        if stream_ok then
          ∃ w3 evs,
            out = CustomProvider.sandbox self cfg
                    (CustomProvider.base_cmd self cfg
                     ++ [PStr "--hook-payload-file"; PStr hook_file]) w3 ∧
            fs_files (w_fs w3) !! hook_file = Some (String.concat "" chunks) ∧
            w_trace w3 = w_trace w ++ [EvWritten cfg; EvGet (PStr u); EvWritten hook_file] ∧
            w_trace out.2 = w_trace w3 ++ evs
        else aborted RequestException
      else aborted IOError
  end.
Proof.
  intros Hurl Hu cfg hook_file Hcfg out w1 w2 aborted.
  assert (Htruthy : truthy (PStr u) = true).
  { simpl. by destruct (String.eqb_spec u ""). }
  assert (Hout : out =
    match http_get u w1 with
    | GetFailed => (inl (Builtin RequestException), w2)
    | Response status chunks stream_ok _ =>
        if (400 <=? status) && (status <? 600) then (inl (Builtin HTTPError), w2)
        else if write_ok hook_file w2 then
          let w2' := set_fs (put_file hook_file (String.concat "" chunks) (w_fs w2)) w2 in
          if stream_ok then
            CustomProvider.sandbox self cfg
              (CustomProvider.base_cmd self cfg
               ++ [PStr "--hook-payload-file"; PStr hook_file])
              (emit (EvWritten hook_file) w2')
          else (inl (Builtin RequestException), w2')
        else (inl (Builtin IOError), w2)
    end).
  { subst out. unfold CustomProvider.produce_srpm, bind at 1.
    unfold write_file. fold cfg. rewrite Hcfg. fold w1.
    unfold bind at 1. unfold CustomProvider.fetch_hook_payload.
    rewrite Hurl, Htruthy. fold hook_file.
    unfold bind at 1. unfold requests_get. fold w2.
    destruct (http_get u w1) as [|status chunks stream_ok js]; [done|].
    unfold bind at 1. unfold raise_for_status.
    destruct ((400 <=? status) && (status <? 600)); [done|].
    unfold ret at 1. unfold bind at 1. unfold write_stream.
    destruct (write_ok hook_file w2); [|done].
    by destruct stream_ok. }
  subst aborted. rewrite Hout. clear Hout.
  assert (Hbase : w_trace w2 = w_trace w ++ [EvWritten cfg; EvGet (PStr u)]).
  { unfold w2, w1. simpl. by rewrite <- app_assoc. }
  destruct (http_get u w1) as [|status chunks stream_ok js]; [by eauto|].
  destruct ((400 <=? status) && (status <? 600)); [by eauto|].
  destruct (write_ok hook_file w2); simpl; [|by eauto].
  destruct stream_ok; simpl; [|by eauto].
  set (w3 := emit (EvWritten hook_file) _).
  destruct (keeps_sandbox extends extends_refl extends_trans
              (fun f w => extends_refl (set_fs f w))
              (fun e w => ex_intro _ [e] eq_refl)
              self cfg
              (CustomProvider.base_cmd self cfg
               ++ [PStr "--hook-payload-file"; PStr hook_file]) w3)
    as [evs Hevs].
  exists w3, evs. repeat split; [| |exact Hevs].
  - apply lookup_insert_eq.
  - unfold w3, w2, w1. simpl. by rewrite <- !app_assoc.
Qed.

Lemma hook_payload_before_sandbox_witness :
  let E := Sample.env_of (Sample.prints "" "" 0) (Sample.serves 404 [])
             Sample.accepts Sample.writable in
  let out := CustomProvider.produce_srpm (H := E) Sample.custom Sample.w0 in
  out.1 = inl (Builtin HTTPError)
  ∧ w_trace out.2 = [] ++ [EvWritten "/results/mock-config.cfg";
                           EvGet (PStr "http://frontend/tmp/x1/hook_payload")].
Proof.
  intros E out.
  apply (hook_payload_before_sandbox (H := E) Sample.custom Sample.w0
           "http://frontend/tmp/x1/hook_payload").
  - reflexivity.
  - discriminate.
  - reflexivity.
Defined.

(** C9, as stated, fails: the answer 304 is not a 2xx one, and the build
    goes on to the sandbox with an empty payload file. *)
Lemma produce_srpm_goes_on_after_304 :
  let E := Sample.env_of (Sample.prints "" "" 0) (Sample.serves 304 [])
             Sample.accepts Sample.writable in
  let out := CustomProvider.produce_srpm (H := E) Sample.custom Sample.w0 in
  out.1 = inr tt
  ∧ List.filter is_run_cmd (w_trace out.2)
    = [ EvRunCmd [PStr "unbuffer"; PStr "copr-sources-custom";
                  PStr "--workdir"; PStr "/workdir";
                  PStr "--mock-config"; PStr "/results/mock-config.cfg";
                  PStr "--script"; PStr "/results/script";
                  PStr "--hook-payload-file"; PStr "/results/hook_payload"];
        EvRunCmd [PStr "mock"; PStr "-r"; PStr "/results/mock-config.cfg";
                  PStr "--copyout"; PStr "/workdir"; PStr "/results/srcdir"];
        EvRunCmd [PStr "mock"; PStr "-r"; PStr "/results/mock-config.cfg";
                  PStr "--scrub"; PStr "all"] ].
Proof. split; vm_compute; reflexivity. Qed.

(** ** Cleanup of the git providers *)

Lemma remove_tree_gone (d : string) (f : filesystem) :
  d ∉ fs_dirs (remove_tree d f).
Proof. unfold remove_tree. simpl. rewrite elem_of_filter. by intros [[? _] _]. Qed.

Lemma remove_tree_subset (d p : string) (f : filesystem) :
  p ∈ fs_dirs (remove_tree d f) → p ∈ fs_dirs f.
Proof. unfold remove_tree. simpl. rewrite elem_of_filter. by intros [_ ?]. Qed.

(** After a [clean] that returns, both directories are gone. *)
Lemma clean_removes `{Env} (self : GitProviderObj) (w w' : world) :
  GitProvider.clean self w = (inr tt, w') →
  (gp_tmp self ∉ fs_dirs (w_fs w')) ∧ (gp_tmp_dest self ∉ fs_dirs (w_fs w')).
Proof.
  unfold GitProvider.clean, bind, shutil_rmtree.
  case_decide; [|discriminate]. simpl. case_decide; [|discriminate].
  intros [= <-]. split.
  - intros Hin. apply remove_tree_subset in Hin. by apply remove_tree_gone in Hin.
  - apply remove_tree_gone.
Qed.

Lemma clone_same_dirs `{Env} (self self' : GitProviderObj) (w w' : world) :
  GitProvider.clone self w = (inr self', w') →
  gp_tmp self' = gp_tmp self ∧ gp_tmp_dest self' = gp_tmp_dest self.
Proof.
  unfold GitProvider.clone, bind, try_except, ret, raise, argv.
  intros Hc. repeat (case_match; simplify_eq; try done).
Qed.

(** The success path of C1: when [get_srpm] of a git provider returns, the
    scratch and the build-output directory no longer exist. *)
Lemma get_srpm_success_cleans `{Env} (build : GitProviderObj → M unit)
    (self : GitProviderObj) (w w' : world) :
  GitProvider.get_srpm build self w = (inr tt, w') →
  (gp_tmp self ∉ fs_dirs (w_fs w')) ∧ (gp_tmp_dest self ∉ fs_dirs (w_fs w')).
Proof.
  unfold GitProvider.get_srpm. unfold bind at 1.
  destruct (GitProvider.clone self w) as [[e|self1] w1] eqn:Hclone; [discriminate|].
  apply clone_same_dirs in Hclone as [<- <-].
  unfold bind at 1. destruct (GitProvider.checkout self1 w1) as [[e|[]] w2]; [discriminate|].
  unfold bind at 1. destruct (build self1 w2) as [[e|[]] w3]; [discriminate|].
  unfold bind at 1. destruct (GitProvider.copy self1 w3) as [[e|[]] w4]; [discriminate|].
  apply clean_removes.
Qed.

(** C1 fails on the code.  [git clone] writes on stderr; [get_srpm] of the
    tito provider and of the mock provider raises [git_clone_failed], and
    the two directories that [GitProvider.__init__] made are still there:
    [clean] is the last statement of [get_srpm] and is skipped by every
    exception. *)
Theorem git_get_srpm_leaves_dirs_on_failure :
  let E := Sample.env_of (Sample.prints "" "fatal: repository not found" 128)
             (Sample.serves 200 []) Sample.accepts Sample.writable in
  let run c := SourceProvider.get_srpm (H := E)
                 {| sp_task := Sample.tito_task;
                    sp_target_path := "/t/package.src.rpm";
                    sp_provider := c |} Sample.w0 in
  fs_dirs (w_fs Sample.w0) = ∅ ∧
  ∀ c, c ≠ SrpmUrlProvider →
    (run c).1 = inl (GitAndTitoException (PStr "git_clone_failed")) ∧
    "/tmp/tmp0" ∈ fs_dirs (w_fs (run c).2) ∧
    "/tmp/tmp1" ∈ fs_dirs (w_fs (run c).2).
Proof.
  intros E run. split; [done|].
  assert (Hdirs : ∀ c, c ≠ SrpmUrlProvider →
            (run c).1 = inl (GitAndTitoException (PStr "git_clone_failed")) ∧
            elements (fs_dirs (w_fs (run c).2)) = ["/tmp/tmp1"; "/tmp/tmp0"]).
  { intros [| |] Hc; [done| |]; split; vm_compute; reflexivity. }
  intros c Hc. specialize (Hdirs c Hc). destruct Hdirs as [Hr He].
  split; [done|].
  rewrite <- !elem_of_elements, He. set_solver.
Qed.

(** * Further properties of the code *)

(** ** Decoding a job *)

(** X1. A task that [from_dict] has just decoded carries no result: name,
    version and commit are [None], and so is its [reponame]. *)
Theorem from_dict_result_fields_unset `{Env} (job : pyval) (opts : Opts)
    (t : ImportTask) :
  Task.from_dict job opts = inr t →
  package_name t = PNone ∧ package_version t = PNone ∧ git_hash t = PNone
  ∧ Task.reponame t = PNone.
Proof.
  unfold Task.from_dict, res_bind. intros Hd.
  assert (Hn : package_name t = PNone ∧ package_version t = PNone
               ∧ git_hash t = PNone).
  { repeat (case_match; simplify_eq; try done). }
  destruct Hn as (Hn & Hv & Hh). repeat split; try done.
  unfold Task.reponame. rewrite Hn. simpl. by rewrite !orb_true_r.
Qed.

Lemma from_dict_result_fields_unset_witness :
  ∃ t, Task.from_dict (H := Sample.decoding)
         (Sample.job 4 "{git_url: http://git/repo.git, mock}") Sample.opts = inr t
       ∧ Task.reponame (H := Sample.decoding) t = PNone.
Proof.
  eexists. split; [vm_compute; reflexivity|].
  exact (proj2 (proj2 (proj2
           (from_dict_result_fields_unset (H := Sample.decoding)
              (Sample.job 4 "{git_url: http://git/repo.git, mock}")
              Sample.opts _ eq_refl)))).
Defined.

(** X2. A task that [from_dict] has decoded is never refused by
    [SourceProvider.__init__]: the two agree on what a source type is. *)
Theorem from_dict_then_select `{Env} (job : pyval) (opts : Opts)
    (t : ImportTask) (target_path : string) :
  Task.from_dict job opts = inr t →
  ∃ c, SourceProvider.init t target_path
       = inr {| sp_task := t; sp_target_path := target_path; sp_provider := c |}.
Proof.
  unfold Task.from_dict, res_bind, SourceProvider.init. intros Hd.
  repeat (case_match; simplify_eq; simpl in *; eauto).
Qed.

Lemma from_dict_then_select_witness :
  ∃ t, Task.from_dict (H := Sample.decoding)
         (Sample.job 2 "{tmp: tmp42, pkg: y.src.rpm}") Sample.opts = inr t
       ∧ ∃ c, SourceProvider.init t "/t/package.src.rpm"
              = inr {| sp_task := t; sp_target_path := "/t/package.src.rpm";
                       sp_provider := c |}.
Proof.
  eexists. split; [vm_compute; reflexivity|].
  exact (from_dict_then_select (H := Sample.decoding)
           (Sample.job 2 "{tmp: tmp42, pkg: y.src.rpm}") Sample.opts _
           "/t/package.src.rpm" eq_refl).
Defined.

(** X3. A job that is a dict but lacks one of the six fields of the
    envelope makes [from_dict] raise [KeyError], whatever else it holds. *)
Theorem from_dict_missing_field `{Env} (d : list (string * pyval))
    (opts : Opts) (k : string) :
  k ∈ ["task_id"; "user"; "project"; "branch"; "source_type"; "source_json"] →
  assoc k d = None →
  Task.from_dict (PDict d) opts = inl (Builtin KeyError).
Proof.
  intros Hk Hnone. unfold Task.from_dict, res_bind, getitem.
  destruct (assoc "task_id" d) eqn:H1; [|done].
  destruct (assoc "user" d) eqn:H2; [|done].
  destruct (assoc "project" d) eqn:H3; [|done].
  destruct (assoc "branch" d) eqn:H4; [|done].
  destruct (assoc "source_type" d) eqn:H5; [|done].
  destruct (assoc "source_json" d) eqn:H6; [|done].
  exfalso. set_unfold. destruct Hk as [->|[->|[->|[->|[->|[->|[]]]]]]]; congruence.
Qed.

Lemma from_dict_missing_field_witness :
  Task.from_dict (H := Sample.decoding)
    (PDict [("task_id", PInt 1); ("user", PStr "alice");
            ("source_type", PInt 1);
            ("source_json", PStr "{url: http://x/y.src.rpm}")])
    Sample.opts = inl (Builtin KeyError).
Proof.
  apply (from_dict_missing_field (H := Sample.decoding) _ Sample.opts "branch").
  - set_solver.
  - reflexivity.
Defined.



(** The envelope of a decoded task is the envelope of the job. *)
Lemma from_dict_envelope `{Env} (job : pyval) (opts : Opts) (t : ImportTask) :
  Task.from_dict job opts = inr t →
  getitem job "task_id" = inr (task_id t) ∧
  getitem job "source_type" = inr (source_type t) ∧
  getitem job "source_json" = inr (source_json t) ∧
  loads (source_json t) = inr (source_data t).
Proof.
  unfold Task.from_dict, res_bind. intros Hd.
  destruct (getitem job "task_id"); [done|].
  destruct (getitem job "user"); [done|].
  destruct (getitem job "project"); [done|].
  destruct (getitem job "branch"); [done|].
  destruct (getitem job "source_type") as [|st]; [done|].
  destruct (getitem job "source_json") as [|sj]; [done|].
  destruct (loads sj) as [|sd] eqn:Hsd; [done|].
  destruct (if _ : bool then _ else _) as [|git]; [done|].
  repeat (case_match; simplify_eq; try done).
Qed.

Lemma eq_int_unique (v : pyval) (a b : Z) :
  eq_int v a = true → a ≠ b → eq_int v b = false.
Proof.
  destruct v as [|c|z| | |]; unfold eq_int; try done;
    intros Ha%Z.eqb_eq Hab; apply Z.eqb_neq; congruence.
Qed.

(** X5. An upload reference is resolved against the frontend: a decoded
    task of source type SRPM_UPLOAD has the package URL
    [<frontend_base_url>/tmp/<tmp>/<pkg>], with [tmp] and [pkg] taken from
    its payload, and no git fields. *)
Theorem from_dict_upload_url `{Env} (job : pyval) (opts : Opts) (t : ImportTask) :
  Task.from_dict job opts = inr t →
  eq_int (source_type t) SourceType.SRPM_UPLOAD = true →
  ∃ tmp pkg,
    getitem (source_data t) "tmp" = inr tmp ∧
    getitem (source_data t) "pkg" = inr pkg ∧
    package_url t = PStr (frontend_base_url opts +:+ "/tmp/" +:+ py_str tmp
                          +:+ "/" +:+ py_str pkg) ∧
    git_url t = PNone ∧ git_branch t = PNone ∧ tito_git_dir t = PNone.
Proof.
  intros Hd Hst.
  destruct (from_dict_envelope job opts t Hd) as (_ & Hty & Hsj & Hsd).
  unfold Task.from_dict, res_bind in Hd. rewrite Hty, Hsj, Hsd in Hd.
  destruct (getitem job "task_id"); [done|].
  destruct (getitem job "user"); [done|].
  destruct (getitem job "project"); [done|].
  destruct (getitem job "branch"); [done|].
  rewrite (eq_int_unique _ _ SourceType.SRPM_LINK Hst),
          (eq_int_unique _ _ SourceType.GIT_AND_TITO Hst),
          (eq_int_unique _ _ SourceType.GIT_AND_MOCK Hst), Hst in Hd by done.
  simpl in Hd.
  destruct (getitem (source_data t) "tmp") as [|tmp]; [done|].
  destruct (getitem (source_data t) "pkg") as [|pkg]; [done|].
  exists tmp, pkg. injection Hd as <-. by repeat split.
Qed.

Lemma from_dict_upload_url_witness :
  ∃ t, Task.from_dict (H := Sample.decoding)
         (Sample.job 2 "{tmp: tmp42, pkg: y.src.rpm}") Sample.opts = inr t
       ∧ package_url t = PStr "http://frontend/tmp/tmp42/y.src.rpm".
Proof.
  eexists. split; [vm_compute; reflexivity|].
  destruct (from_dict_upload_url (H := Sample.decoding)
              (Sample.job 2 "{tmp: tmp42, pkg: y.src.rpm}") Sample.opts _
              eq_refl eq_refl) as (tmp & pkg & Ht & Hp & Hurl & _).
  vm_compute in Ht, Hp. injection Ht as <-. injection Hp as <-. exact Hurl.
Defined.

(** X6. For both git source types a decoded task has the clone URL, the
    branch and the in-repository directory of its payload; the directory is
    stored as [tito_git_dir] for a mock task too, which is where [clone]
    reads it. *)
Theorem from_dict_git_fields `{Env} (job : pyval) (opts : Opts) (t : ImportTask) :
  Task.from_dict job opts = inr t →
  eq_int (source_type t) SourceType.GIT_AND_TITO = true
  ∨ eq_int (source_type t) SourceType.GIT_AND_MOCK = true →
  getitem (source_data t) "git_url" = inr (git_url t) ∧
  getitem (source_data t) "git_branch" = inr (git_branch t) ∧
  getitem (source_data t) "git_dir" = inr (tito_git_dir t) ∧
  package_url t = PNone.
Proof.
  intros Hd Hst.
  destruct (from_dict_envelope job opts t Hd) as (_ & Hty & Hsj & Hsd).
  unfold Task.from_dict, res_bind in Hd. rewrite Hty, Hsj, Hsd in Hd.
  destruct (getitem job "task_id"); [done|].
  destruct (getitem job "user"); [done|].
  destruct (getitem job "project"); [done|].
  destruct (getitem job "branch"); [done|].
  destruct Hst as [Hst|Hst].
  - rewrite (eq_int_unique _ _ SourceType.SRPM_LINK Hst),
            (eq_int_unique _ _ SourceType.SRPM_UPLOAD Hst), Hst in Hd by done.
    simpl in Hd.
    destruct (getitem (source_data t) "git_url"); [done|].
    destruct (getitem (source_data t) "git_branch"); [done|]. simpl in Hd.
    destruct (getitem (source_data t) "git_dir"); [done|].
    destruct (getitem (source_data t) "tito_test"); [done|].
    injection Hd as <-. by repeat split.
  - rewrite (eq_int_unique _ _ SourceType.SRPM_LINK Hst),
            (eq_int_unique _ _ SourceType.SRPM_UPLOAD Hst),
            (eq_int_unique _ _ SourceType.GIT_AND_TITO Hst), Hst in Hd by done.
    simpl in Hd.
    destruct (getitem (source_data t) "git_url"); [done|].
    destruct (getitem (source_data t) "git_branch"); [done|]. simpl in Hd.
    destruct (getitem (source_data t) "git_dir"); [done|].
    injection Hd as <-. by repeat split.
Qed.

Lemma from_dict_git_fields_witness :
  ∃ t, Task.from_dict (H := Sample.decoding)
         (Sample.job 4 "{git_url: http://git/repo.git, mock}") Sample.opts = inr t
       ∧ getitem (source_data t) "git_dir" = inr (tito_git_dir t).
Proof.
  eexists. split; [vm_compute; reflexivity|].
  exact (proj1 (proj2 (proj2
           (from_dict_git_fields (H := Sample.decoding)
              (Sample.job 4 "{git_url: http://git/repo.git, mock}")
              Sample.opts _ eq_refl (or_intror eq_refl))))).
Defined.

(** ** The git providers, stage by stage *)


(** X9. [checkout] does nothing at all for a branch that is empty or
    [master]; for any other branch name it runs [git checkout <branch>] in
    the effective source subdirectory and fails, with
    [tito_git_checkout_error], exactly when git cannot be launched or writes
    on stderr. *)
Theorem checkout_outcome `{Env} (self : GitProviderObj) (w : world) (b : string) :
  git_branch (gp_task self) = PStr b →
  if bool_decide (b = "" ∨ b = "master") then
    GitProvider.checkout self w = (inr tt, w)
  else
    let cmd := Argv ["git"; "checkout"; b] in
    let out := GitProvider.checkout self w in
    w_trace out.2 = w_trace w ++ [EvPopen cmd (gp_git_subdir self)] ∧
    match (popen cmd (gp_git_subdir self) w).1 with
    | Completed _ "" _ => out.1 = inr tt
    | _ => out.1 = inl (GitProvider.fail "tito_git_checkout_error")
    end.
Proof.
  intros Hb. unfold GitProvider.checkout. rewrite Hb. simpl.
  case_bool_decide as Hdef.
  - destruct Hdef as [->| ->]; reflexivity.
  - assert (Hne : negb (b =? "")%string && negb (b =? "master")%string = true).
    { destruct (String.eqb_spec b ""), (String.eqb_spec b "master"); naive_solver. }
    rewrite Hne. unfold bind, try_except, Popen, argv. simpl.
    destruct (popen (Argv ["git"; "checkout"; b]) (gp_git_subdir self) w)
      as [[|out err rc] f]; simpl; [done|].
    destruct (String.eqb_spec err "") as [->|Herr]; simpl; [done|].
    split; [done|]. by destruct err.
Qed.

Lemma checkout_outcome_witness :
  let E := Sample.env_of (Sample.prints "" "" 0) (Sample.serves 200 [])
             Sample.accepts Sample.writable in
  let self := {| gp_task := Sample.tito_task;
                 gp_target_path := "/t/package.src.rpm";
                 gp_tmp := "/scratch"; gp_tmp_dest := "/out";
                 gp_git_subdir := Some "/scratch/repo/" |} in
  GitProvider.checkout (H := E) self Sample.w0 = (inr tt, Sample.w0).
Proof.
  intros E self.
  exact (checkout_outcome (H := E) self Sample.w0 "master" eq_refl).
Defined.

(** X10. The mock build wants exactly one name ending in [.spec] directly in
    the effective source subdirectory, files and directories alike: with
    none or several it raises the SRPM build error at once, and no program
    has been launched. *)
Theorem mock_build_needs_one_spec `{Env} (self : GitProviderObj) (w : world)
    (d : string) :
  gp_git_subdir self = Some d →
  d ∈ fs_dirs (w_fs w) →
  List.length (List.filter (fun x => PyStr.endswith x ".spec") (entries d (w_fs w)))
    ≠ 1%nat →
  GitAndMock.build self w = (inl (GitProvider.fail "tito_srpm_build_error"), w).
Proof.
  intros Hd Hin Hlen.
  unfold GitAndMock.build, GitAndMock.listdir_subdir, bind at 1.
  rewrite Hd. unfold os_listdir. rewrite decide_True by done.
  by destruct (List.filter _ _) as [|spec [|other rest]].
Qed.

Lemma mock_build_needs_one_spec_witness :
  let E := Sample.env_of (Sample.prints "" "" 0) (Sample.serves 200 [])
             Sample.accepts Sample.writable in
  let w := {| w_fs := {| fs_dirs := {[ "/scratch/repo/sub";
                                       "/scratch/repo/sub/b.spec" ]};
                         fs_files := {[ "/scratch/repo/sub/a.spec" := "Name: a" ]} |};
              w_trace := []; w_running := false |} in
  let self := {| gp_task := Sample.tito_task;
                 gp_target_path := "/t/package.src.rpm";
                 gp_tmp := "/scratch"; gp_tmp_dest := "/out";
                 gp_git_subdir := Some "/scratch/repo/sub" |} in
  GitAndMock.build (H := E) self w
  = (inl (GitAndTitoException (PStr "tito_srpm_build_error")), w).
Proof.
  intros E w self.
  apply (mock_build_needs_one_spec (H := E) self w "/scratch/repo/sub").
  - reflexivity.
  - simpl. set_solver.
  - vm_compute. discriminate.
Defined.



(** X12. When [get_srpm] of a git provider returns, the scratch directory
    and the build-output directory are gone (lemma
    [get_srpm_success_cleans]); here it is run on a host where every stage
    succeeds. *)
Lemma get_srpm_success_cleans_witness :
  let E := Sample.env_of Sample.git_host (Sample.serves 200 [])
             Sample.accepts Sample.writable in
  let w := {| w_fs := {| fs_dirs := {[ "/scratch"; "/out" ]}; fs_files := ∅ |};
              w_trace := []; w_running := false |} in
  let self := {| gp_task := Sample.tito_task;
                 gp_target_path := "/t/package.src.rpm";
                 gp_tmp := "/scratch"; gp_tmp_dest := "/out";
                 gp_git_subdir := None |} in
  (GitAndTito.get_srpm (H := E) self w).1 = inr tt
  ∧ ("/scratch" ∉ fs_dirs (w_fs (GitAndTito.get_srpm (H := E) self w).2))
  ∧ ("/out" ∉ fs_dirs (w_fs (GitAndTito.get_srpm (H := E) self w).2)).
Proof.
  intros E w self.
  assert (Hrun : GitProvider.get_srpm (H := E) (GitAndTito.build (H := E)) self w
                 = (inr tt, (GitAndTito.get_srpm (H := E) self w).2)).
  { vm_compute. reflexivity. }
  split; [vm_compute; reflexivity|].
  exact (get_srpm_success_cleans (H := E) (GitAndTito.build (H := E)) self w _ Hrun).
Defined.

(** ** The importer's own temporary directories *)

Lemma rmtree_gone `{Env} (d : string) (w : world) :
  d ∉ fs_dirs (w_fs (shutil_rmtree d w).2).
Proof.
  unfold shutil_rmtree. case_decide; simpl; [apply remove_tree_gone|done].
Qed.

(** X13. When [git_import_srpm] cannot make its scratch directory it raises
    [OSError] and nothing has happened.  Otherwise the scratch directory it
    makes for the import routine is gone afterwards, whether the routine
    returned a commit or raised; and as long as the routine leaves that
    directory in place, what it returned or raised is what
    [git_import_srpm] returns or raises. *)
Theorem git_import_srpm_removes_scratch `{Env} (self : DistGitImporterObj)
    (task : ImportTask) (filepath : string) (w : world) :
  let tmp := tmp_path (fresh (used_suffixes (w_fs w))) in
  let out := DistGitImporter.git_import_srpm self task filepath w in
  let routine := do_git_srpm_import (imp_opts self) filepath task tmp (mkdtemp w).2 in
  if tmp_ok w then
    (tmp ∉ fs_dirs (w_fs out.2)) ∧
    (tmp ∈ fs_dirs routine.2 → out.1 = routine.1) ∧
    w_trace out.2 = w_trace w ++ [EvGitImport filepath]
  else out = (inl (Builtin OSError), w).
Proof.
  intros tmp out routine. subst out.
  unfold DistGitImporter.git_import_srpm, bind, try_finally.
  assert (Hm : tmp_ok w = true → mkdtemp w = (inr tmp, (mkdtemp w).2)).
  { intros Hok. unfold mkdtemp. by rewrite Hok. }
  destruct (tmp_ok w) eqn:Hok; [|unfold mkdtemp; by rewrite Hok].
  specialize (Hm eq_refl). set (w0 := (mkdtemp w).2) in *.
  assert (Htr0 : w_trace w0 = w_trace w).
  { unfold w0, mkdtemp. by rewrite Hok. }
  clearbody w0. rewrite Hm. cbn iota beta.
  fold routine. destruct routine as [r f]. cbn [fst snd].
  set (w1 := set_fs f _).
  pose proof (rmtree_gone tmp w1) as Hgone.
  assert (Hin : tmp ∈ fs_dirs f →
                shutil_rmtree tmp w1 = (inr tt, (shutil_rmtree tmp w1).2)).
  { intros Hf. unfold shutil_rmtree. rewrite decide_True; done. }
  assert (Htr : w_trace (shutil_rmtree tmp w1).2 = w_trace w ++ [EvGitImport filepath]).
  { rewrite <- Htr0. unfold shutil_rmtree. case_decide; done. }
  destruct (shutil_rmtree tmp w1) as [[e|[]] w2] eqn:Hrm; cbn [fst snd] in *;
    repeat split; try done.
  intros Hf. specialize (Hin Hf). discriminate.
Qed.

(** X14. The directory that [do_import] makes for the fetched SRPM is gone
    when [do_import] is over, whatever happened to the task. *)
Theorem do_import_removes_tmp_root `{Env} (self : DistGitImporterObj)
    (task : ImportTask) (w : world) :
  tmp_path (fresh (used_suffixes (w_fs w)))
    ∉ fs_dirs (w_fs (DistGitImporter.do_import self task w).2).
Proof.
  pose proof (mkdtemp_fresh (w_fs w)) as Hfresh.
  unfold DistGitImporter.do_import, bind at 1. unfold str_format at 1.
  destruct (forallb encodable _); [|done].
  unfold ret at 1. unfold bind at 1. unfold mkdtemp at 1.
  destruct (tmp_ok w); [|done].
  unfold try_finally.
  destruct (try_except _ _ _) as [r w2].
  unfold shutil_rmtree_ignore_errors, try_except.
  pose proof (rmtree_gone (tmp_path (fresh (used_suffixes (w_fs w)))) w2) as Hgone.
  unfold shutil_rmtree in *. case_decide; simpl in *; done.
Qed.

Lemma git_import_srpm_removes_scratch_witness :
  let E := Sample.env_of (Sample.prints "" "" 0) (Sample.serves 200 [])
             Sample.accepts Sample.writable in
  (DistGitImporter.git_import_srpm (H := E) Sample.importer Sample.link_task
     "/t/package.src.rpm" Sample.w0).1 = inr (PStr "6d1f3a").
Proof.
  intros E.
  pose proof (git_import_srpm_removes_scratch (H := E) Sample.importer
                Sample.link_task "/t/package.src.rpm" Sample.w0) as Hrun.
  cbv zeta in Hrun. change (tmp_ok Sample.w0) with true in Hrun.
  destruct Hrun as (_ & Hsame & _).
  rewrite Hsame; [reflexivity|]. simpl. set_solver.
Defined.

(** ** Downloading an SRPM *)

(** What a download that does not succeed leaves behind: the exception,
    and one [get] in the trace. *)
Lemma srpm_url_get_srpm_failure `{Env} (task : ImportTask) (target_path : string)
    (w : world) :
  (SrpmUrl.get_srpm task target_path w).1 ≠ inr tt →
  (SrpmUrl.get_srpm task target_path w).1 = inl PackageDownloadException ∧
  w_trace (SrpmUrl.get_srpm task target_path w).2
    = w_trace w ++ [EvGet (package_url task)].
Proof.
  unfold SrpmUrl.get_srpm, bind, try_except, requests_get, SrpmUrl.any_to, raise,
    write_stream.
  destruct (package_url task) as [| | |u| |]; simpl; try done.
  destruct (http_get u w) as [|status chunks ok js]; simpl; [done|].
  destruct ((200 <=? status) && (status <? 400)); simpl; [|done].
  destruct (write_ok _ _); simpl; [|done].
  destruct ok; simpl; done.
Qed.

(** X15. A download that succeeds leaves at [target_path] exactly the
    bytes the server sent, chunk after chunk, and touches no other file and
    no directory. *)
Theorem srpm_url_download_content `{Env} (task : ImportTask)
    (target_path : string) (w w' : world) :
  SrpmUrl.get_srpm task target_path w = (inr tt, w') →
  ∃ u status chunks js,
    package_url task = PStr u ∧
    http_get u w = Response status chunks true js ∧
    fs_files (w_fs w') = <[ target_path := String.concat "" chunks ]> (fs_files (w_fs w)) ∧
    fs_dirs (w_fs w') = fs_dirs (w_fs w).
Proof.
  unfold SrpmUrl.get_srpm, bind, try_except, requests_get, SrpmUrl.any_to, raise,
    write_stream.
  destruct (package_url task) as [| | |u| |]; simpl; try done.
  destruct (http_get u w) as [|status chunks ok js] eqn:Hget; simpl; [done|].
  destruct ((200 <=? status) && (status <? 400)); simpl; [|done].
  destruct (write_ok _ _); simpl; [|done].
  destruct ok; simpl; [|done].
  intros [= <-]. exists u, status, chunks, js. by repeat split.
Qed.

Lemma srpm_url_download_content_witness :
  let E := Sample.env_of (Sample.prints "" "" 0)
             (Sample.serves 200 ["srpm "; "bytes"])
             Sample.accepts Sample.writable in
  fs_files (w_fs (SrpmUrl.get_srpm (H := E) Sample.link_task
                    "/t/package.src.rpm" Sample.w0).2)
  = <[ "/t/package.src.rpm" := "srpm bytes" ]> ∅.
Proof.
  intros E.
  destruct (srpm_url_download_content (H := E) Sample.link_task
              "/t/package.src.rpm" Sample.w0 _ eq_refl)
    as (u & status & chunks & js & Hu & Hget & Hfiles & _).
  injection Hu as <-. injection Hget as <- <- <-. exact Hfiles.
Defined.

Lemma init_for_srpm_types (task : ImportTask) (path : string) :
  eq_int (source_type task) SourceType.SRPM_LINK = true
  ∨ eq_int (source_type task) SourceType.SRPM_UPLOAD = true →
  SourceProvider.init task path
  = inr {| sp_task := task; sp_target_path := path; sp_provider := SrpmUrlProvider |}.
Proof.
  unfold SourceProvider.init. intros [Hty|Hty]; rewrite Hty; [done|].
  by destruct (eq_int (source_type task) SourceType.SRPM_LINK).
Qed.

(** X16. A task of an SRPM source type whose download does not succeed
    costs one [get] and one post: [do_import] returns, having reported
    [srpm_download_failed], and has queried no package, prepared no
    repository and imported nothing.  This is so when the task's identifier
    and URL can be formatted into the log line and the temporary directory
    can be made; otherwise [do_import] raises [UnicodeEncodeError], or
    [OSError], before anything has happened. *)
Theorem do_import_download_failure `{Env} (self : DistGitImporterObj)
    (task : ImportTask) (w : world) :
  let path := os_path_join (tmp_path (fresh (used_suffixes (w_fs w))))
                           "package.src.rpm" in
  eq_int (source_type task) SourceType.SRPM_LINK = true
  ∨ eq_int (source_type task) SourceType.SRPM_UPLOAD = true →
  (SrpmUrl.get_srpm task path (mkdtemp w).2).1 ≠ inr tt →
  let out := DistGitImporter.do_import self task w in
  if forallb encodable [task_id task; package_url task] then
    if tmp_ok w then
      out.1 = inr tt ∧
      w_trace out.2
      = w_trace w ++ [EvGet (package_url task);
                      EvPost (imp_upload_url self)
                             (DistGitImporter.failure_dict task "srpm_download_failed")]
    else out = (inl (Builtin OSError), w)
  else out = (inl (Builtin UnicodeEncodeError), w).
Proof.
  intros path Hty Hfail out. subst out.
  destruct (do_import_before_try self task w) as [Hnofmt Hnotmp].
  destruct (forallb encodable [task_id task; package_url task]) eqn:Hfmt;
    [|by apply Hnofmt].
  destruct (tmp_ok w) eqn:Htmp; [|by apply Hnotmp].
  destruct (do_import_unfold self task w Hfmt Htmp) as (r & w' & -> & Hw').
  fold path in Hw'. cbn [fst snd].
  set (w1 := (mkdtemp w).2) in *.
  assert (Htr : w_trace w1 = w_trace w).
  { unfold w1, mkdtemp. by rewrite Htmp. }
  clearbody w1.
  assert (Hlog : forallb encodable
                   (DistGitImporter.logged task PackageDownloadException) = true).
  { simpl in *. apply andb_prop in Hfmt as [_ Hfmt]. exact Hfmt. }
  destruct (srpm_url_get_srpm_failure task path w1 Hfail) as [He Ht].
  assert (Hp : DistGitImporter.pipeline self task path w1
               = (inl PackageDownloadException,
                  (SrpmUrl.get_srpm task path w1).2)).
  { unfold DistGitImporter.pipeline, DistGitImporter.stages, bind at 1 2.
    unfold lift. rewrite (init_for_srpm_types task path Hty).
    unfold bind at 1. unfold SourceProvider.get_srpm. simpl.
    destruct (SrpmUrl.get_srpm task path w1) as [r1 w2].
    simpl in He. by subst r1. }
  rewrite Hp, Hlog in Hw'. destruct Hw' as [-> Hw']. split; [done|].
  rewrite Hw', Ht, Htr. by rewrite <- app_assoc.
Qed.

Lemma do_import_download_failure_witness :
  let E := Sample.env_of (Sample.prints "" "" 0) (Sample.serves 404 [])
             Sample.accepts Sample.writable in
  w_trace (DistGitImporter.do_import (H := E) Sample.importer Sample.link_task
             Sample.w0).2
  = [] ++ [EvGet (PStr "http://x/y.src.rpm");
           EvPost "http://frontend/backend/import-completed/"
             (PDict [("task_id", PInt 7); ("error", PStr "srpm_download_failed")])].
Proof.
  intros E.
  apply (do_import_download_failure (H := E) Sample.importer Sample.link_task
           Sample.w0).
  - left. reflexivity.
  - vm_compute. discriminate.
Defined.

(** ** What a success record holds *)

Lemma before_git_import_needs_reponame `{Env} (task : ImportTask) (w w' : world) :
  DistGitImporter.before_git_import task w = (inr tt, w') →
  ∃ r, Task.reponame task = PStr r.
Proof.
  unfold DistGitImporter.before_git_import, bind at 1.
  unfold subprocess_call at 1. unfold bind at 1. unfold argv. simpl.
  destruct (Task.reponame task) as [| | |r| |]; simpl; try done. eauto.
Qed.

(** X17. When all stages of a task succeed, each stage returned in turn:
    the provider fetched the SRPM, the package query on the fetched file
    gave a name and a version, the repository was prepared, the import gave
    a commit, and the listing was refreshed.  The success record then holds
    that name, that version and that commit; the task had a user and a
    project, and the repository name of the record is [user/project/name],
    each part formatted by [str].  A task without user or project never
    gets as far as the import. *)
Theorem stages_success_record `{Env} (self : DistGitImporterObj)
    (task : ImportTask) (path : string) (w : world) (t : ImportTask) (w' : world) :
  DistGitImporter.stages self task path w = (inr t, w') →
  ∃ provider w1 name evr w2 w3 commit w4,
    let named := Task.set_package (PStr name) (PStr evr) task in
    SourceProvider.init task path = inr provider ∧
    SourceProvider.get_srpm provider w = (inr tt, w1) ∧
    DistGitImporter.pkg_name_evr path w1 = (inr (name, evr), w2) ∧
    DistGitImporter.before_git_import named w2 = (inr tt, w3) ∧
    DistGitImporter.git_import_srpm self named path w3 = (inr commit, w4) ∧
    DistGitImporter.after_git_import self w4 = (inr tt, w') ∧
    user task ≠ PNone ∧ project task ≠ PNone ∧
    Task.get_dict_for_frontend t =
      PDict [ ("task_id", task_id task);
              ("pkg_name", PStr name);
              ("pkg_version", PStr evr);
              ("repo_name", PStr (py_str (user task) +:+ "/"
                                  +:+ py_str (project task) +:+ "/"
                                  +:+ py_str (PStr name)));
              ("git_hash", commit) ].
Proof.
  unfold DistGitImporter.stages. unfold bind at 1. unfold lift.
  destruct (SourceProvider.init task path) as [|provider] eqn:Hinit; [done|].
  unfold bind at 1.
  destruct (SourceProvider.get_srpm provider w) as [[|[]] w1] eqn:Hget; [done|].
  unfold bind at 1.
  destruct (DistGitImporter.pkg_name_evr path w1) as [[|[name evr]] w2] eqn:Hq;
    [done|].
  cbn [fst snd].
  set (task1 := Task.set_package (PStr name) (PStr evr) task).
  unfold bind at 1.
  destruct (DistGitImporter.before_git_import task1 w2) as [[|[]] w3] eqn:Hb; [done|].
  pose proof (before_git_import_needs_reponame _ _ _ Hb) as [r Hr].
  unfold bind at 1.
  destruct (DistGitImporter.git_import_srpm self task1 path w3) as [[|h] w4]
    eqn:Himp; [done|].
  unfold bind at 1.
  destruct (DistGitImporter.after_git_import self w4) as [[|[]] w5] eqn:Hafter;
    [done|].
  intros [= <- <-]. exists provider, w1, name, evr, w2, w3, h, w4.
  cbv zeta. fold task1. do 6 (split; [done|]).
  unfold Task.reponame in Hr. subst task1. simpl in Hr.
  destruct (user task) eqn:Hu, (project task) eqn:Hp; simpl in Hr; try done;
    (split; [done|]; split; [done|]);
    unfold Task.get_dict_for_frontend, Task.reponame; simpl;
    by rewrite ?Hu, ?Hp.
Qed.

Lemma stages_success_record_witness :
  let E := Sample.env_of (Sample.prints "y (none) 1 1" "" 0)
             (Sample.serves 200 ["srpm bytes"])
             Sample.accepts Sample.writable in
  let out := DistGitImporter.stages (H := E) Sample.importer Sample.link_task
               "/tmp/tmp0/package.src.rpm" (mkdtemp (H := E) Sample.w0).2 in
  ∃ t name evr commit w1 w2,
    out.1 = inr t ∧
    DistGitImporter.pkg_name_evr (H := E) "/tmp/tmp0/package.src.rpm" w1
      = (inr (name, evr), w2) ∧
    Task.get_dict_for_frontend (H := E) t =
      PDict [ ("task_id", PInt 7); ("pkg_name", PStr name);
              ("pkg_version", PStr evr);
              ("repo_name", PStr ("alice" +:+ "/" +:+ "tools" +:+ "/" +:+ name));
              ("git_hash", commit) ].
Proof.
  intros E out.
  assert (Hrun : DistGitImporter.stages (H := E) Sample.importer Sample.link_task
                   "/tmp/tmp0/package.src.rpm" (mkdtemp (H := E) Sample.w0).2
                 = (inr (Task.set_git_hash (PStr "6d1f3a")
                           (Task.set_package (PStr "y") (PStr "1-1")
                              Sample.link_task)), out.2)).
  { vm_compute. reflexivity. }
  destruct (stages_success_record (H := E) _ _ _ _ _ _ Hrun)
    as (provider & w1 & name & evr & w2 & w3 & commit & w4
        & _ & _ & Hquery & _ & _ & _ & _ & _ & Hrec).
  eexists _, name, evr, commit, w1, w2.
  split; [vm_compute; reflexivity|]. split; [exact Hquery|exact Hrec].
Defined.

(** ** Polling *)

(** X18. [try_to_obtain_new_task] never raises and costs exactly one [get]
    of the queue URL, whatever comes back. *)
Theorem try_to_obtain_new_task_total `{Env} (self : DistGitImporterObj) (w : world) :
  ∃ mb_task,
    DistGitImporter.try_to_obtain_new_task self w
    = (inr mb_task, emit (EvGet (PStr (imp_get_url self))) w).
Proof.
  unfold DistGitImporter.try_to_obtain_new_task, try_except, bind at 1.
  unfold requests_get.
  destruct (http_get (imp_get_url self) w) as [|status chunks ok js];
    [by eexists|].
  unfold bind, lift, ret.
  repeat (case_match; simplify_eq; try by eexists).
Qed.

(** X19. Only the first job of the answer is looked at: with a non-empty
    list of builds the outcome is the decoded first job, or [None] when it
    does not decode; the jobs after it play no part. *)
Theorem try_to_obtain_new_task_first_job `{Env} (self : DistGitImporterObj)
    (w : world) (status : Z) (chunks : list string) (ok : bool)
    (body job : pyval) (rest : list pyval) :
  http_get (imp_get_url self) w = Response status chunks ok (Some body) →
  getitem body "builds" = inr (PList (job :: rest)) →
  DistGitImporter.try_to_obtain_new_task self w
  = (inr (match Task.from_dict job (imp_opts self) with
          | inr task => Some task
          | inl _ => None
          end),
     emit (EvGet (PStr (imp_get_url self))) w).
Proof.
  intros Hget Hb.
  unfold DistGitImporter.try_to_obtain_new_task, try_except, bind, requests_get,
    lift, ret.
  rewrite Hget. simpl. rewrite Hb. simpl.
  by destruct (Task.from_dict job (imp_opts self)).
Qed.

Lemma try_to_obtain_new_task_first_job_witness :
  let first := Sample.job 1 "{url: http://x/y.src.rpm}" in
  let E := Sample.stopping Sample.decoding in
  let E' := {| popen := @popen E; call := @call E;
               http_get := fun _ _ =>
                 Response 200 [] true
                   (Some (PDict [("builds", PList [first; PDict []])]));
               http_post := @http_post E; write_ok := @write_ok E;
               tmp_ok := @tmp_ok E; encodable := @encodable E;
               do_git_srpm_import := @do_git_srpm_import E;
               run_cmd := @run_cmd E; build_srpm := @build_srpm E;
               normpath := @normpath E; py_str := @py_str E;
               json_loads := @json_loads E; FailTypeEnum := @FailTypeEnum E;
               stop_request := @stop_request E |} in
  ∃ task, (DistGitImporter.try_to_obtain_new_task (H := E') Sample.importer
             Sample.w0).1 = inr (Some task)
          ∧ package_url task = PStr "http://x/y.src.rpm".
Proof.
  intros first E E'.
  rewrite (try_to_obtain_new_task_first_job (H := E') Sample.importer Sample.w0
             200 [] true (PDict [("builds", PList [first; PDict []])])
             first [PDict []] eq_refl eq_refl).
  eexists. split; vm_compute; reflexivity.
Defined.

(** ** The polling loop *)

Lemma turn_when_unreachable `{Env} (self : DistGitImporterObj) (w : world) :
  http_get (imp_get_url self) w = GetFailed →
  DistGitImporter.turn self w
  = (inr tt, emit EvSleep (emit (EvGet (PStr (imp_get_url self))) w)).
Proof.
  intros Hget.
  unfold DistGitImporter.turn, bind at 1.
  unfold DistGitImporter.try_to_obtain_new_task, try_except, bind at 1.
  unfold requests_get. by rewrite Hget.
Qed.

(** X20. While the queue owner cannot be reached and nobody asks for a
    stop, the loop goes on for as many turns as it is watched, each turn
    being one [get] followed by one sleep; nothing is posted and nothing
    else is run. *)
Theorem run_idle_when_unreachable `{Env} (self : DistGitImporterObj)
    (turns : nat) (w : world) :
  (∀ w', http_get (imp_get_url self) w' = GetFailed) →
  (∀ w', stop_request w' = false) →
  let out := DistGitImporter.run self turns w in
  out.1 = inr LoopRunning ∧
  w_trace out.2
  = w_trace w ++ List.concat
                   (List.repeat [EvGet (PStr (imp_get_url self)); EvSleep] turns) ∧
  w_running out.2 = true ∧
  w_fs out.2 = w_fs w.
Proof.
  intros Hget Hstop. cbv zeta.
  change (DistGitImporter.run self turns w)
    with (DistGitImporter.loop self turns (set_running true w)).
  assert (Hloop : ∀ n v, w_running v = true →
            (DistGitImporter.loop self n v).1 = inr LoopRunning ∧
            w_trace (DistGitImporter.loop self n v).2
            = w_trace v ++ List.concat
                (List.repeat [EvGet (PStr (imp_get_url self)); EvSleep] n) ∧
            w_running (DistGitImporter.loop self n v).2 = true ∧
            w_fs (DistGitImporter.loop self n v).2 = w_fs v).
  { induction n as [|n IH]; intros v Hv.
    - simpl. by rewrite app_nil_r.
    - rewrite loop_step by done.
      rewrite (turn_when_unreachable self v (Hget v)). cbn [snd].
      unfold DistGitImporter.interference. rewrite Hstop. cbn [snd].
      destruct (IH (emit EvSleep (emit (EvGet (PStr (imp_get_url self))) v)) Hv)
        as (H1 & H2 & H3 & H4).
      repeat split; try done.
      rewrite H2. simpl. by rewrite <- !app_assoc. }
  apply (Hloop turns (set_running true w)). done.
Qed.

Lemma run_idle_when_unreachable_witness :
  let E := Sample.env_of (Sample.prints "" "" 0) Sample.unreachable
             Sample.accepts Sample.writable in
  let poll := EvGet (PStr "http://frontend/backend/importing/") in
  w_trace (DistGitImporter.run (H := E) Sample.importer 3 Sample.w0).2
  = [] ++ List.concat (List.repeat [poll; EvSleep] 3).
Proof.
  intros E poll.
  apply (run_idle_when_unreachable (H := E) Sample.importer 3 Sample.w0);
    intros w'; reflexivity.
Defined.

(** X21. A stop asked for while a turn is under way does not cut the turn
    short: when the turn returns, the flag is cleared after it, and the loop
    leaves at the next test of its condition without starting another
    turn.  When the turn raises, [run] ends there with the exception of the
    turn, and the flag is never looked at again. *)
Theorem run_stops_after_the_turn `{Env} (self : DistGitImporterObj)
    (turns : nat) (w : world) :
  (∀ w', stop_request w' = true) →
  DistGitImporter.run self (S (S turns)) w
  = match DistGitImporter.turn self (set_running true w) with
    | (inr _, w1) => (inr LoopExited, emit EvStop (set_running false w1))
    | (inl e, w1) => (inl e, w1)
    end.
Proof.
  intros Hstop.
  change (DistGitImporter.run self (S (S turns)) w)
    with (DistGitImporter.loop self (S (S turns)) (set_running true w)).
  rewrite loop_step by done.
  destruct (DistGitImporter.turn self (set_running true w)) as [[e|[]] w1];
    [done|].
  unfold DistGitImporter.interference. rewrite Hstop. reflexivity.
Qed.

Lemma run_stops_after_the_turn_witness :
  let E := Sample.stopping
             (Sample.env_of (Sample.prints "" "" 0) Sample.unreachable
                Sample.accepts Sample.writable) in
  DistGitImporter.run (H := E) Sample.importer 5 Sample.w0
  = (inr LoopExited,
     {| w_fs := Sample.empty_fs;
        w_trace := [EvGet (PStr "http://frontend/backend/importing/");
                    EvSleep; EvStop];
        w_running := false |}).
Proof.
  intros E.
  rewrite (run_stops_after_the_turn (H := E) Sample.importer 3 Sample.w0
             (fun _ => eq_refl)).
  reflexivity.
Defined.

(** ** The custom-script provider *)

Lemma truthy_nonempty_suffix (a b : string) :
  b ≠ "" → truthy (PStr (a +:+ b)) = true.
Proof.
  intros Hb. simpl. destruct a as [|c a]; [|done].
  change ("" +:+ b) with b. by destruct (String.eqb_spec b "").
Qed.

(** X22. When the constructor of the custom provider returns, the script of
    the payload has been written, as it is, to [<outdir>/script], and
    nothing else was done.  The webhook payload URL is
    [<frontend_url>/tmp/<tmp>/hook_payload], a non-empty string, when the
    payload has the key [hook_data], and [None] when it has not. *)
Theorem custom_init_outcome `{Env} (source_json : pyval)
    (outdir frontend_url : string) (w : world)
    (self : CustomProviderObj) (w' : world) :
  CustomProvider.init source_json outdir frontend_url w = (inr self, w') →
  let file_script := os_path_join outdir "script" in
  ∃ body,
    getitem source_json "script" = inr (PStr body) ∧
    w' = emit (EvWritten file_script)
           (set_fs (put_file file_script body (w_fs w)) w) ∧
    cp_file_script self = file_script ∧
    cp_outdir self = outdir ∧ cp_workdir self = outdir ∧
    (if CustomProvider.has_key source_json "hook_data" then
       ∃ tmp, getitem source_json "tmp" = inr tmp ∧
              cp_hook_payload_url self
              = PStr (frontend_url +:+ "/tmp/" +:+ py_str tmp +:+ "/hook_payload") ∧
              truthy (cp_hook_payload_url self) = true
     else cp_hook_payload_url self = PNone).
Proof.
  intros Hinit file_script.
  unfold CustomProvider.init, CustomProvider.write_script, bind, lift, ret,
    raise in Hinit.
  fold file_script in Hinit.
  destruct (CustomProvider.dict_get source_json "chroot"); [done|].
  destruct (CustomProvider.dict_get source_json "resultdir"); [done|].
  destruct (CustomProvider.dict_get source_json "builddeps"); [done|].
  destruct (CustomProvider.has_key source_json "hook_data").
  - destruct (getitem source_json "tmp") as [|tmp]; [done|].
    destruct (write_ok file_script w) eqn:Hok; [|done].
    destruct (getitem source_json "script") as [|[| | |body| |]]; try done.
    unfold write_file in Hinit. rewrite Hok in Hinit.
    injection Hinit as <- <-. exists body. repeat split.
    exists tmp. repeat split. simpl cp_hook_payload_url.
    apply truthy_nonempty_suffix. intros Heq. vm_compute in Heq. discriminate.
  - destruct (write_ok file_script w) eqn:Hok; [|done].
    destruct (getitem source_json "script") as [|[| | |body| |]]; try done.
    unfold write_file in Hinit. rewrite Hok in Hinit.
    injection Hinit as <- <-. exists body. by repeat split.
Qed.

Lemma custom_init_outcome_witness :
  let E := Sample.env_of (Sample.prints "" "" 0) (Sample.serves 200 [])
             Sample.accepts Sample.writable in
  let out := CustomProvider.init (H := E) Sample.custom_source_json
               "/results" "http://frontend" Sample.w0 in
  ∃ self, out.1 = inr self
          ∧ fs_files (w_fs out.2) !! "/results/script" = Some "make srpm"
          ∧ cp_hook_payload_url self = PStr "http://frontend/tmp/x1/hook_payload".
Proof.
  intros E out.
  assert (Hrun : CustomProvider.init (H := E) Sample.custom_source_json
                   "/results" "http://frontend" Sample.w0
                 = (inr {| cp_outdir := "/results";
                           cp_chroot := PStr "fedora-rawhide-x86_64";
                           cp_inner_resultdir := PNone;
                           cp_builddeps := PNone;
                           cp_hook_payload_url :=
                             PStr "http://frontend/tmp/x1/hook_payload";
                           cp_workdir := "/results";
                           cp_file_script := "/results/script" |}, out.2)).
  { vm_compute. reflexivity. }
  destruct (custom_init_outcome (H := E) _ _ _ _ _ _ Hrun)
    as (body & Hbody & Hw' & _ & _ & _ & Hhook).
  eexists. split; [vm_compute; reflexivity|].
  injection Hbody as <-. split; [|reflexivity].
  rewrite Hw'. vm_compute. reflexivity.
Defined.

(** X23. Without a webhook payload URL, [produce_srpm] makes no HTTP
    request: having written the sandbox configuration it goes straight to
    the sandbox with the base command line, which has no
    [--hook-payload-file]; and when the configuration cannot be written it
    raises [IOError] and has done nothing. *)
Theorem produce_srpm_without_hook `{Env} (self : CustomProviderObj) (w : world) :
  truthy (cp_hook_payload_url self) = false →
  let cfg := os_path_join (cp_outdir self) "mock-config.cfg" in
  CustomProvider.produce_srpm self w =
    if write_ok cfg w then
      CustomProvider.sandbox self cfg (CustomProvider.base_cmd self cfg)
        (emit (EvWritten cfg)
           (set_fs (put_file cfg (CustomProvider.mock_config (cp_chroot self))
                             (w_fs w)) w))
    else (inl (Builtin IOError), w).
Proof.
  intros Hhook cfg.
  unfold CustomProvider.produce_srpm, bind at 1. unfold write_file. fold cfg.
  destruct (write_ok cfg w); [|done].
  unfold bind at 1. unfold CustomProvider.fetch_hook_payload. rewrite Hhook.
  unfold ret at 1. by rewrite app_nil_r.
Qed.

Lemma produce_srpm_without_hook_witness :
  let E := Sample.env_of (Sample.prints "" "" 0) Sample.unreachable
             Sample.accepts Sample.writable in
  let self := {| cp_outdir := "/results";
                 cp_chroot := PStr "fedora-rawhide-x86_64";
                 cp_inner_resultdir := PNone; cp_builddeps := PNone;
                 cp_hook_payload_url := PNone;
                 cp_workdir := "/results";
                 cp_file_script := "/results/script" |} in
  (CustomProvider.produce_srpm (H := E) self Sample.w0).1 = inr tt.
Proof.
  intros E self.
  rewrite (produce_srpm_without_hook (H := E) self Sample.w0 eq_refl).
  vm_compute. reflexivity.
Defined.



(** ** The provisioning scripts *)

Lemma subprocess_call_strings `{Env} (l : list pyval) (a : list string) (w : world) :
  str_args l = Some a →
  subprocess_call l w =
    match call a w with
    | (None, _) => (inl (Builtin OSError), emit (EvCall a) w)
    | (Some rc, f) => (inr rc, set_fs f (emit (EvCall a) w))
    end.
Proof.
  intros Hl. unfold subprocess_call, bind, argv. rewrite Hl. simpl.
  by destruct (call a w) as [[rc|] f].
Qed.

(** X25. [before_git_import] runs the ensure-repository script and then the
    ensure-branch script, both with the task's repository name, and does not
    look at their exit statuses: whatever they are, it returns.  Only a
    script that cannot be launched makes it raise, [OSError]. *)
Theorem before_git_import_ignores_status `{Env} (task : ImportTask) (w : world)
    (r b : string) :
  Task.reponame task = PStr r →
  branch task = PStr b →
  let first := ["/usr/share/dist-git/git_package.sh"; r] in
  let second := ["/usr/share/dist-git/git_branch.sh"; b; r] in
  let out := DistGitImporter.before_git_import task w in
  match call first w with
  | (None, _) => out = (inl (Builtin OSError), emit (EvCall first) w)
  | (Some _, f1) =>
      let w1 := set_fs f1 (emit (EvCall first) w) in
      match call second w1 with
      | (None, _) => out = (inl (Builtin OSError), emit (EvCall second) w1)
      | (Some _, f2) => out = (inr tt, set_fs f2 (emit (EvCall second) w1))
      end
  end.
Proof.
  intros Hr Hb first second out.
  assert (Hout : out =
    match call first w with
    | (None, _) => (inl (Builtin OSError), emit (EvCall first) w)
    | (Some _, f1) =>
        match call second (set_fs f1 (emit (EvCall first) w)) with
        | (None, _) => (inl (Builtin OSError),
                        emit (EvCall second) (set_fs f1 (emit (EvCall first) w)))
        | (Some _, f2) =>
            (inr tt, set_fs f2 (emit (EvCall second)
                                  (set_fs f1 (emit (EvCall first) w))))
        end
    end).
  { subst out. unfold DistGitImporter.before_git_import. rewrite Hr, Hb.
    unfold bind at 1.
    rewrite (subprocess_call_strings
               [PStr "/usr/share/dist-git/git_package.sh"; PStr r] first w eq_refl).
    destruct (call first w) as [[rc1|] f1]; [|reflexivity].
    unfold bind at 1.
    rewrite (subprocess_call_strings
               [PStr "/usr/share/dist-git/git_branch.sh"; PStr b; PStr r]
               second _ eq_refl).
    destruct (call second _) as [[rc2|] f2]; reflexivity. }
  rewrite Hout. destruct (call first w) as [[rc1|] f1]; [|done].
  cbv zeta. by destruct (call second _) as [[rc2|] f2].
Qed.

Lemma before_git_import_ignores_status_witness :
  let E := Sample.env_of (Sample.prints "" "" 0) (Sample.serves 200 [])
             Sample.accepts Sample.writable in
  let task := Task.set_package (PStr "y") (PStr "1-1") Sample.link_task in
  DistGitImporter.before_git_import (H := E) task Sample.w0
  = (inr tt,
     set_fs Sample.empty_fs
       (emit (EvCall ["/usr/share/dist-git/git_branch.sh"; "f40"; "alice/tools/y"])
          (set_fs Sample.empty_fs
             (emit (EvCall ["/usr/share/dist-git/git_package.sh"; "alice/tools/y"])
                Sample.w0)))).
Proof.
  intros E task.
  exact (before_git_import_ignores_status (H := E) task Sample.w0
           "alice/tools/y" "f40" eq_refl eq_refl).
Defined.
